(** * The account-lifecycle orchestrator of [main.py]

    A shallow embedding of [CursorApp] (the four workflows
    [generate_account], [reset_ID], [update_auth], [auto_register] and
    their helpers [_save_env_vars] and [backup_env_file]) together with
    the properties of the orchestrator that follow from the code.

    Python [str] values are Rocq strings holding the UTF-8 encoding of
    the text.  The Tk widgets, the environment file, the backup
    directory and the registrar object form an explicit state; every
    call that leaves [main.py] (the [Utils] helpers, the three external
    operations, the registrar methods, the message boxes) is recorded
    in the trace of the invocation, and what it answers is given by a
    record of collaborators. *)

From Stdlib Require Import Ascii String NArith Bool Lia.
From stdpp Require Import base gmap strings list fin_maps pretty.

(** ** Text: [str.strip] and the [in] operator *)

Module PyStr.

Local Open Scope N_scope.

Definition bytes (s : string) : list ascii := list_ascii_of_string s.
Definition text (l : list ascii) : string := string_of_list_ascii l.

(** [str.isspace] holds of the code points U+0009..U+000D,
    U+001C..U+0020, U+0085, U+00A0, U+1680, U+2000..U+200A, U+2028,
    U+2029, U+202F, U+205F and U+3000.  The three predicates below
    recognise their UTF-8 encodings of one, two and three bytes. *)
Definition space1 (a : N) : bool :=
  (9 <=? a) && (a <=? 13) || (28 <=? a) && (a <=? 32).

Definition space2 (a b : N) : bool :=
  (a =? 194) && ((b =? 133) || (b =? 160)).

Definition space3 (a b c : N) : bool :=
  (a =? 225) && (b =? 154) && (c =? 128)
  || (a =? 226) && (b =? 128)
     && ((128 <=? c) && (c <=? 138) || (c =? 168) || (c =? 169) || (c =? 175))
  || (a =? 226) && (b =? 129) && (c =? 159)
  || (a =? 227) && (b =? 128) && (c =? 128).

(** The text after one leading whitespace character, if there is one. *)
Definition skip_space (l : list ascii) : option (list ascii) :=
  match l with
  | a :: l1 =>
      if space1 (N_of_ascii a) then Some l1 else
      match l1 with
      | b :: l2 =>
          if space2 (N_of_ascii a) (N_of_ascii b) then Some l2 else
          match l2 with
          | c :: l3 =>
              if space3 (N_of_ascii a) (N_of_ascii b) (N_of_ascii c)
              then Some l3 else None
          | [] => None
          end
      | [] => None
      end
  | [] => None
  end.

(** The same on a reversed text: the last byte of the character comes
    first. *)
Definition skip_space_back (l : list ascii) : option (list ascii) :=
  match l with
  | a :: l1 =>
      if space1 (N_of_ascii a) then Some l1 else
      match l1 with
      | b :: l2 =>
          if space2 (N_of_ascii b) (N_of_ascii a) then Some l2 else
          match l2 with
          | c :: l3 =>
              if space3 (N_of_ascii c) (N_of_ascii b) (N_of_ascii a)
              then Some l3 else None
          | [] => None
          end
      | [] => None
      end
  | [] => None
  end.

(** Dropping whitespace characters for as long as [skip] finds one;
    every round consumes a byte, so [length l] rounds are enough. *)
Fixpoint drop_spaces (skip : list ascii → option (list ascii))
    (fuel : nat) (l : list ascii) : list ascii :=
  match fuel with
  | O => l
  | S fuel' =>
      match skip l with
      | Some l' => drop_spaces skip fuel' l'
      | None => l
      end
  end.

Definition lstrip_bytes (l : list ascii) : list ascii :=
  drop_spaces skip_space (length l) l.

Definition rstrip_bytes (l : list ascii) : list ascii :=
  rev (drop_spaces skip_space_back (length l) (rev l)).

(** [s.strip()] *)
Definition strip (s : string) : string :=
  text (rstrip_bytes (lstrip_bytes (bytes s))).

Fixpoint starts_with (t l : list ascii) : bool :=
  match t, l with
  | [], _ => true
  | _ :: _, [] => false
  | a :: t', b :: l' => Ascii.eqb a b && starts_with t' l'
  end.

Fixpoint find_in (t l : list ascii) : bool :=
  starts_with t l ||
  match l with
  | [] => false
  | _ :: l' => find_in t l'
  end.

(** [t in s] for two strings. *)
Definition str_in (t s : string) : bool := find_in (bytes t) (bytes s).

(** Truth value of a string: [bool(s)]. *)
Definition truthy (s : string) : bool :=
  match s with
  | EmptyString => false
  | String _ _ => true
  end.

End PyStr.

Import PyStr.

(** ** Values exchanged with the collaborators *)

Inductive ExcType := Exception | RuntimeError | TypeError | AttributeError.

Record Exc := mkExc { exc_type : ExcType; exc_msg : string }.

(** What a call gives back: a value, or a raised exception. *)
Inductive Outcome (A : Type) :=
| Returns (a : A)
| Raises (e : Exc).
Arguments Returns {A} a.
Arguments Raises {A} e.

(** Modelled from the spec: [cursor_utils.Result], the envelope
    {success, payload, message} that every external operation returns.
    The class is imported by [main.py] and is not part of it. *)
Record Result (T : Type) := mkResult {
  success : bool;
  data : option T;
  message : string
}.
Arguments mkResult {T} success data message.
Arguments success {T} r.
Arguments data {T} r.
Arguments message {T} r.

(** Modelled from the spec: the truth value of a [Result] is its
    status (the [__bool__] of [cursor_utils.Result], which is not in
    [main.py]); this is what [if not (result := ...)] tests. *)
Definition Result_bool {T} (r : Result T) : bool := success r.

(** [generate_cursor_account] answers with an envelope whose payload is
    (email, password), or with the legacy plain tuple. *)
Inductive GenResult :=
| GenEnvelope (r : Result (string * string))
| GenTuple (email password : string).

(** [bool(result)]: a 2-tuple is never empty, hence true. *)
Definition GenResult_bool (g : GenResult) : bool :=
  match g with
  | GenEnvelope r => Result_bool r
  | GenTuple _ _ => true
  end.

(** [result.data if isinstance(result, Result) else result] *)
Definition payload (g : GenResult) : option (string * string) :=
  match g with
  | GenEnvelope r => data r
  | GenTuple email password => Some (email, password)
  end.

Inductive MsgType := showerror | showwarning | showinfo.

(** ** The trace of an invocation *)

Inductive Event :=
| EvShowMessage (msg_type : MsgType) (title message : string)
| EvEntryDelete (key : string)
| EvEntryInsert (key value : string)
| EvUpdateEnvVars (updates : gmap string string) (ok : bool)
| EvBackupFile (source backup_dir suffix : string) (max_backups : nat) (ok : bool)
| EvLoadDotenv
| EvGenerate (r : Outcome GenResult)
| EvReset (r : Outcome (Result unit))
| EvProcessCookies (cookie_str : string) (r : Outcome (Result unit))
| EvNewRegistration (r : Outcome unit)
| EvInitBrowser (r : Outcome unit) (handle : bool)
| EvFillRegistrationForm (r : Outcome unit)
| EvFillPassword (r : Outcome unit)
| EvGetUserInfo (r : Outcome unit)
| EvGetCursorToken (r : Outcome (option string))
| EvWaitForUser (message : string)
| EvBrowserQuit (r : Outcome unit)
| EvReport (e : Exc).

(** ** State *)

Record State := mkState {
  entries : gmap string string;           (* self.entries: text of each Entry *)
  env_file : option (gmap string string); (* the .env file, None when absent *)
  backups : list (gmap string string);    (* backup directory, oldest first *)
  registrar_browser : bool                (* truth value of registrar.browser *)
}.

Definition set_entries (f : gmap string string → gmap string string) (st : State) : State :=
  mkState (f (entries st)) (env_file st) (backups st) (registrar_browser st).
Definition set_env_file (v : option (gmap string string)) (st : State) : State :=
  mkState (entries st) v (backups st) (registrar_browser st).
Definition set_backups (v : list (gmap string string)) (st : State) : State :=
  mkState (entries st) (env_file st) v (registrar_browser st).
Definition set_registrar_browser (v : bool) (st : State) : State :=
  mkState (entries st) (env_file st) (backups st) v.

(** [WindowConfig], with the fields the orchestrator reads. *)
Record WindowConfig := mkWindowConfig {
  backup_dir : string;
  max_backups : nat;
  env_vars : list (string * string)
}.

(** [WindowConfig()]: the defaults of the dataclass. *)
Definition config : WindowConfig := {|
  backup_dir := "env_backups";
  max_backups := 10;
  env_vars := [("DOMAIN", "域名"); ("EMAIL", "邮箱"); ("PASSWORD", "密码")]
|}.

(** ** Collaborators

    What the code outside [main.py] answers.  Each answer may depend on
    the state and on everything that happened so far in the invocation. *)

Record InitReply := mkInitReply {
  init_outcome : Outcome unit;
  init_handle : bool     (* is registrar.browser set when the call ends *)
}.

Record Collaborators := mkCollaborators {
  env_path : string;     (* str(Utils.get_path('env')) *)
  update_env_vars_ok : State → list Event → gmap string string → bool;
  backup_file_ok : State → list Event → bool;
  generate_cursor_account_reply : State → list Event → Outcome GenResult;
  reset_reply : State → list Event → Outcome (Result unit);
  process_cookies_reply : State → list Event → string → Outcome (Result unit);
  new_registration_reply : State → list Event → Outcome unit;
  init_browser_reply : State → list Event → InitReply;
  fill_registration_form_reply : State → list Event → Outcome unit;
  fill_password_reply : State → list Event → Outcome unit;
  get_user_info_reply : State → list Event → Outcome unit;
  get_cursor_token_reply : State → list Event → Outcome (option string);
  browser_quit_reply : State → list Event → Outcome unit
}.

(** ** The monad of workflow code: state, trace and exceptions *)

Definition M (A : Type) : Type :=
  State → list Event → Outcome A * State * list Event.

Definition ret {A} (a : A) : M A := λ st tr, (Returns a, st, tr).

Definition bind {A B} (m : M A) (k : A → M B) : M B :=
  λ st tr,
    match m st tr with
    | (Returns a, st', tr') => k a st' tr'
    | (Raises e, st', tr') => (Raises e, st', tr')
    end.

Notation "x <- m ;; k" := (bind m (λ x, k))
  (at level 100, m at next level, right associativity, only parsing).
Notation "m ;; k" := (bind m (λ _, k))
  (at level 100, right associativity, only parsing).

Definition raise {A} (t : ExcType) (msg : string) : M A :=
  λ st tr, (Raises (mkExc t msg), st, tr).

Definition reraise {A} (e : Exc) : M A := λ st tr, (Raises e, st, tr).

Definition emit (e : Event) : M unit := λ st tr, (Returns tt, st, tr ++ [e]).

Definition get : M State := λ st tr, (Returns st, st, tr).

Definition modify (f : State → State) : M unit := λ st tr, (Returns tt, f st, tr).

Definition ask {A} (f : State → list Event → A) : M A :=
  λ st tr, (Returns (f st tr), st, tr).

(** [try: body finally: fin]: [fin] runs however [body] ends; an
    exception of [fin] replaces the pending result. *)
Definition try_finally {A} (body : M A) (fin : M unit) : M A :=
  λ st tr,
    match body st tr with
    | (r, st1, tr1) =>
        match fin st1 tr1 with
        | (Returns _, st2, tr2) => (r, st2, tr2)
        | (Raises e, st2, tr2) => (Raises e, st2, tr2)
        end
    end.

(** One invocation of a workflow from the UI: the state it leaves and
    the trace of what it did. *)
Definition invoke (w : M unit) (st : State) : State * list Event :=
  match w st [] with
  | (_, st', tr) => (st', tr)
  end.

(** ** The program *)

Module UI.

(** [UI.show_message]: bell, message box, log line. *)
Definition show_message (title message : string) (msg_type : MsgType) : M unit :=
  emit (EvShowMessage msg_type title message).

(** [UI.show_success] *)
Definition show_success (message : string) : M unit :=
  show_message "成功" message showinfo.

(** [UI.show_warning] *)
Definition show_warning (message : string) : M unit :=
  show_message "警告" message showwarning.

End UI.

(** [self.entries[key].get()]; [setup_ui] builds an Entry for every
    name of [config.env_vars] and for ['cookie'] before a workflow can
    run, so the lookup is total. *)
Definition entry_text (es : gmap string string) (key : string) : string :=
  default "" (es !! key).

Definition entry_get (key : string) : M string :=
  st <- get;; ret (entry_text (entries st) key).

(** [self.entries[key].delete(0, tk.END)] *)
Definition entry_delete (key : string) : M unit :=
  modify (set_entries (λ es, <[key := ""]> es));;
  emit (EvEntryDelete key).

(** [self.entries[key].insert(0, value)] *)
Definition entry_insert (key value : string) : M unit :=
  modify (set_entries (λ es, <[key := value +:+ entry_text es key]> es));;
  emit (EvEntryInsert key value).

(** [load_dotenv(override=True)] *)
Definition load_dotenv : M unit := emit EvLoadDotenv.

(** A dict is true when it is not empty. *)
Definition dict_bool (d : gmap string string) : bool :=
  bool_decide (d ≠ ∅).

(** The dict comprehension of [_save_env_vars]:
    [{var_name: value.strip() for var_name, _ in env_vars
      if (value := entries[var_name].get().strip())}]. *)
Definition visible_updates (vars : list (string * string))
    (es : gmap string string) : gmap string string :=
  foldl (λ (d : gmap string string) (v : string * string),
           let value := strip (entry_text es (fst v)) in
           if truthy value then <[fst v := strip value]> d else d)
        ∅ vars.

(** Keeping the [n] newest entries of the backup directory. *)
Definition rotate (n : nat) (l : list (gmap string string)) : list (gmap string string) :=
  drop (length l - n) l.

(** [env_path.exists()] *)
Definition env_exists (st : State) : bool :=
  match env_file st with
  | Some _ => true
  | None => false
  end.

Section Orchestrator.

Variable C : Collaborators.

(** Modelled from the spec: [Utils.update_env_vars], of
    [cursor_utils]; it merges [updates] into the backing file, keeps
    every other key, and answers [False] without raising when the
    write fails, the file being then as it was. *)
Definition Utils_update_env_vars (updates : gmap string string) : M bool :=
  ok <- ask (λ st tr, update_env_vars_ok C st tr updates);;
  emit (EvUpdateEnvVars updates ok);;
  if ok
  then modify (λ st, set_env_file (Some (updates ∪ default ∅ (env_file st))) st);;
       ret true
  else ret false.

(** Modelled from the spec: [Utils.backup_file], of [cursor_utils];
    it copies the source into the backup directory under a
    time-ordered name and deletes the oldest entries beyond
    [max_backups]; it answers [False] when the copy fails, the
    directory being then as it was. *)
Definition Utils_backup_file (source dir suffix : string) (n : nat) : M bool :=
  ok <- ask (backup_file_ok C);;
  emit (EvBackupFile source dir suffix n ok);;
  if ok
  then modify (λ st, set_backups
                       (rotate n (backups st ++ [default ∅ (env_file st)])) st);;
       ret true
  else ret false.

(** Modelled from the spec: the decorator [error_handler], of
    [cursor_utils]; the boundary of every workflow, which turns any
    failure into one report carrying the underlying message and lets
    nothing escape. *)
Definition error_handler (body : M unit) : M unit :=
  λ st tr,
    match body st tr with
    | (Returns _, st', tr') => (Returns tt, st', tr')
    | (Raises e, st', tr') => (Returns tt, st', tr' ++ [EvReport e])
    end.

(** [CursorApp._save_env_vars], lines 271-280.  The argument is [None]
    when the caller gives none; [not updates] holds of [None] and of
    the empty dict. *)
Definition _save_env_vars (updates : option (gmap string string)) : M unit :=
  updates <- (if negb (from_option dict_bool false updates)
             then st <- get;; ret (visible_updates (env_vars config) (entries st))
             else ret (default ∅ updates));;
  if dict_bool updates
  then ok <- Utils_update_env_vars updates;;
       if negb ok then UI.show_warning "保存环境变量失败" else ret tt
  else ret tt.

(** [CursorApp.backup_env_file], lines 282-289. *)
Definition backup_env_file : M unit :=
  st <- get;;
  if negb (env_exists st)
  then raise Exception ("未找到.env文件: " +:+ env_path C)
  else
    ok <- Utils_backup_file (env_path C) (backup_dir config) ".env" (max_backups config);;
    if negb ok then raise Exception "备份文件失败" else ret tt.

(** The call [generate_cursor_account()]; the operation may raise. *)
Definition call_generate_cursor_account : M GenResult :=
  r <- ask (generate_cursor_account_reply C);;
  emit (EvGenerate r);;
  match r with Returns v => ret v | Raises e => reraise e end.

(** [CursorApp.generate_account], lines 292-309, without its
    decorator.  A result that is false is an envelope, whose message is
    raised; a tuple has no [message]. *)
Definition generate_account_body : M unit :=
  backup_env_file;;
  d <- entry_get "DOMAIN";;
  let domain := strip d in
  (if truthy domain
   then ok <- Utils_update_env_vars {["DOMAIN" := domain]};;
        if negb ok then raise RuntimeError "保存域名失败" else load_dotenv
   else ret tt);;
  result <- call_generate_cursor_account;;
  if negb (GenResult_bool result)
  then match result with
       | GenEnvelope r => raise RuntimeError (message r)
       | GenTuple _ _ => raise AttributeError "'tuple' object has no attribute 'message'"
       end
  else
    match payload result with
    | None => raise TypeError "cannot unpack non-iterable NoneType object"
    | Some (email, password) =>
        entry_delete "EMAIL";;
        entry_insert "EMAIL" email;;
        entry_delete "PASSWORD";;
        entry_insert "PASSWORD" password;;
        UI.show_success "账号生成成功";;
        _save_env_vars None
    end.

(** [@error_handler def generate_account], line 291. *)
Definition generate_account : M unit := error_handler generate_account_body.

(** The call [reset()]. *)
Definition call_reset : M (Result unit) :=
  r <- ask (reset_reply C);;
  emit (EvReset r);;
  match r with Returns v => ret v | Raises e => reraise e end.

(** [CursorApp.reset_ID], lines 312-316, without its decorator. *)
Definition reset_ID_body : M unit :=
  result <- call_reset;;
  if negb (Result_bool result)
  then raise Exception (message result)
  else
    UI.show_success (message result);;
    _save_env_vars None.

(** [@error_handler def reset_ID], line 311. *)
Definition reset_ID : M unit := error_handler reset_ID_body.

(** The call [process_cookies(cookie_str)]. *)
Definition call_process_cookies (cookie_str : string) : M (Result unit) :=
  r <- ask (λ st tr, process_cookies_reply C st tr cookie_str);;
  emit (EvProcessCookies cookie_str r);;
  match r with Returns v => ret v | Raises e => reraise e end.

(** [CursorApp.update_auth], lines 319-335, without its decorator. *)
Definition update_auth_body : M unit :=
  c <- entry_get "cookie";;
  let cookie_str := strip c in
  if negb (truthy cookie_str)
  then UI.show_warning "请输入Cookie字符串"
  else if negb (str_in "WorkosCursorSessionToken=" cookie_str)
  then UI.show_warning "Cookie字符串格式不正确，必须包含 WorkosCursorSessionToken"
  else
    backup_env_file;;
    result <- call_process_cookies cookie_str;;
    if negb (Result_bool result)
    then raise Exception (message result)
    else
      UI.show_success (message result);;
      entry_delete "cookie";;
      _save_env_vars None.

(** [@error_handler def update_auth], line 318. *)
Definition update_auth : M unit := error_handler update_auth_body.

(** [from cursor_registerAc import CursorRegistration] and
    [registrar = CursorRegistration()].

    Modelled from the spec: the registrar, of [cursor_registerAc];
    a fresh one holds no browser, [init_browser] is the method that
    creates the handle [registrar.browser], and the handle stays
    until it is torn down. *)
Definition new_registration : M unit :=
  r <- ask (new_registration_reply C);;
  emit (EvNewRegistration r);;
  match r with
  | Returns _ => modify (set_registrar_browser false)
  | Raises e => reraise e
  end.

(** [registrar.init_browser()] *)
Definition init_browser : M unit :=
  r <- ask (init_browser_reply C);;
  emit (EvInitBrowser (init_outcome r) (init_handle r));;
  modify (set_registrar_browser (init_handle r));;
  match init_outcome r with Returns _ => ret tt | Raises e => reraise e end.

(** A registrar method without result. *)
Definition call_registrar (reply : State → list Event → Outcome unit)
    (ev : Outcome unit → Event) : M unit :=
  r <- ask reply;;
  emit (ev r);;
  match r with Returns _ => ret tt | Raises e => reraise e end.

(** [registrar.fill_registration_form()], [registrar.fill_password()],
    [registrar.get_user_info()] and [registrar.browser.quit()]. *)
Definition fill_registration_form : M unit :=
  call_registrar (fill_registration_form_reply C) EvFillRegistrationForm.
Definition fill_password : M unit :=
  call_registrar (fill_password_reply C) EvFillPassword.
Definition get_user_info : M unit :=
  call_registrar (get_user_info_reply C) EvGetUserInfo.
Definition browser_quit : M unit :=
  call_registrar (browser_quit_reply C) EvBrowserQuit.

(** [registrar.get_cursor_token()]: a string, or [None]. *)
Definition get_cursor_token : M (option string) :=
  r <- ask (get_cursor_token_reply C);;
  emit (EvGetCursorToken r);;
  match r with Returns v => ret v | Raises e => reraise e end.

(** The nested [wait_for_user]: a modal dialog that returns when the
    user presses the button. *)
Definition wait_for_user (message : string) : M unit :=
  emit (EvWaitForUser message).

(** The [try] block of [auto_register], lines 375-388. *)
Definition auto_register_try : M unit :=
  init_browser;;
  fill_registration_form;;
  wait_for_user "请在浏览器中点击按钮，完成后点击继续...";;
  fill_password;;
  wait_for_user "请在浏览器中完成注册和验证码验证，完成后点击继续...";;
  get_user_info;;
  token <- get_cursor_token;;
  if from_option truthy false token
  then
    entry_delete "cookie";;
    entry_insert "cookie" ("WorkosCursorSessionToken=" +:+ default "" token);;
    UI.show_success "自动注册成功，Token已填入"
  else UI.show_warning "获取Token失败".

(** The [finally] block of [auto_register], lines 390-391. *)
Definition auto_register_finally : M unit :=
  st <- get;;
  if registrar_browser st then browser_quit else ret tt.

(** [CursorApp.auto_register], lines 338-391, without its decorator. *)
Definition auto_register_body : M unit :=
  _save_env_vars None;;
  load_dotenv;;
  new_registration;;
  try_finally auto_register_try auto_register_finally.

(** [@error_handler def auto_register], line 337. *)
Definition auto_register : M unit := error_handler auto_register_body.

End Orchestrator.

(** ** Reading a trace *)

(** What [_save_env_vars()] adds to the trace when the visible fields
    give the update [u] and the write answers [ok]. *)
Definition persist_trace (u : gmap string string) (ok : bool) : list Event :=
  if dict_bool u
  then EvUpdateEnvVars u ok ::
       (if ok then [] else [EvShowMessage showwarning "警告" "保存环境变量失败"])
  else [].

(** ... and what it does to the state. *)
Definition persist_state (u : gmap string string) (ok : bool) (st : State) : State :=
  if dict_bool u && ok
  then set_env_file (Some (u ∪ default ∅ (env_file st))) st
  else st.

(** The boundary [error_handler] seen from the caller: the state and
    the trace a workflow body leaves, with the report of the failure
    when it raised. *)
Definition handled (r : Outcome unit * State * list Event) : State * list Event :=
  match r with
  | (Returns _, st, tr) => (st, tr)
  | (Raises e, st, tr) => (st, tr ++ [EvReport e])
  end.

(** The call of [Utils.backup_file] that [backup_env_file] makes. *)
Definition backup_event (C : Collaborators) (ok : bool) : Event :=
  EvBackupFile (env_path C) "env_backups" ".env" 10 ok.

(** The two warnings of the validation gate of [update_auth]. *)
Definition warning_no_cookie : Event :=
  EvShowMessage showwarning "警告" "请输入Cookie字符串".

Definition warning_bad_format : Event :=
  EvShowMessage showwarning "警告"
    "Cookie字符串格式不正确，必须包含 WorkosCursorSessionToken".

(** The report of [backup_env_file] when the file is not there. *)
Definition report_no_env_file (C : Collaborators) : Event :=
  EvReport (mkExc Exception ("未找到.env文件: " +:+ env_path C)).

(** The steps of [generate_account] once the operation has given
    (email, password): the two fields are overwritten, success is
    reported, the visible fields are persisted. *)
Definition accepted_steps (email password : string) : list Event :=
  [EvEntryDelete "EMAIL"; EvEntryInsert "EMAIL" email;
   EvEntryDelete "PASSWORD"; EvEntryInsert "PASSWORD" password;
   EvShowMessage showinfo "成功" "账号生成成功"].

Definition accepted (C : Collaborators) (email password : string)
    (st : State) (tr : list Event) : State * list Event :=
  let st2 := set_entries (λ es, <["PASSWORD" := password]> (<["EMAIL" := email]> es)) st in
  let tr2 := tr ++ accepted_steps email password in
  let u := visible_updates (env_vars config) (entries st2) in
  let ok := update_env_vars_ok C st2 tr2 u in
  (persist_state u ok st2, tr2 ++ persist_trace u ok).

(** What [generate_account] does from the call of the generation
    operation on, when it is reached in state [st] after trace [tr]. *)
Definition generation (C : Collaborators) (st : State) (tr : list Event)
    : State * list Event :=
  match generate_cursor_account_reply C st tr with
  | Raises e => (st, tr ++ [EvGenerate (Raises e); EvReport e])
  | Returns g =>
      let tr1 := tr ++ [EvGenerate (Returns g)] in
      match g with
      | GenEnvelope r =>
          if success r
          then match data r with
               | Some (email, password) => accepted C email password st tr1
               | None =>
                   (st, tr1 ++ [EvReport (mkExc TypeError
                                  "cannot unpack non-iterable NoneType object")])
               end
          else (st, tr1 ++ [EvReport (mkExc RuntimeError (message r))])
      | GenTuple email password => accepted C email password st tr1
      end
  end.

(** The steps of [generate_account] on the domain field [d] (already
    stripped) when the write succeeds. *)
Definition domain_steps (d : string) : list Event :=
  if truthy d then [EvUpdateEnvVars {["DOMAIN" := d]} true; EvLoadDotenv] else [].

(** A write to the store: a call of [Utils.update_env_vars]. *)
Definition is_store_write (e : Event) : bool :=
  match e with EvUpdateEnvVars _ _ => true | _ => false end.

(** A call of [Utils.backup_file], whatever it answers. *)
Definition is_backup_call (e : Event) : bool :=
  match e with EvBackupFile _ _ _ _ _ => true | _ => false end.

(** A call of one of the three external operations or of the
    registrar. *)
Definition is_external_call (e : Event) : bool :=
  match e with
  | EvGenerate _ | EvReset _ | EvProcessCookies _ _ | EvNewRegistration _
  | EvInitBrowser _ _ | EvFillRegistrationForm _ | EvFillPassword _
  | EvGetUserInfo _ | EvGetCursorToken _ | EvBrowserQuit _ => true
  | _ => false
  end.

Definition is_quit (e : Event) : bool :=
  match e with EvBrowserQuit _ => true | _ => false end.

Definition is_report (e : Event) : bool :=
  match e with EvReport _ => true | _ => false end.

(** Number of events of a trace that satisfy [p]. *)
Definition count (p : Event → bool) (tr : list Event) : nat :=
  length (List.filter p tr).

(** The steps of the auto-register sequencer. *)
Inductive Step :=
| BrowserInit | FillRegistrationForm | UserConfirmation
| FillPassword | GetUserInfo | GetToken.

Definition step_of (e : Event) : option Step :=
  match e with
  | EvInitBrowser _ _ => Some BrowserInit
  | EvFillRegistrationForm _ => Some FillRegistrationForm
  | EvWaitForUser _ => Some UserConfirmation
  | EvFillPassword _ => Some FillPassword
  | EvGetUserInfo _ => Some GetUserInfo
  | EvGetCursorToken _ => Some GetToken
  | _ => None
  end.

(** The two messages of the user confirmations. *)
Definition confirm_form : Event :=
  EvWaitForUser "请在浏览器中点击按钮，完成后点击继续...".
Definition confirm_verification : Event :=
  EvWaitForUser "请在浏览器中完成注册和验证码验证，完成后点击继续...".

(** What [auto_register] does once the token is there. *)
Definition terminal_steps (token : option string) : list Event :=
  if from_option truthy false token
  then [EvEntryDelete "cookie";
        EvEntryInsert "cookie" ("WorkosCursorSessionToken=" +:+ default "" token);
        EvShowMessage showinfo "成功" "自动注册成功，Token已填入"]
  else [EvShowMessage showwarning "警告" "获取Token失败"].

Definition terminal_entries (token : option string)
    (es : gmap string string) : gmap string string :=
  if from_option truthy false token
  then <["cookie" := "WorkosCursorSessionToken=" +:+ default "" token]> es
  else es.

(** The runs of the [try] block: the events it adds, how it ends,
    whether [registrar.browser] is set, and the token it got. *)
Inductive SequencerRun :
    list Event → Outcome unit → bool → option (option string) → Prop :=
| seq_init_raises e h :
    SequencerRun [EvInitBrowser (Raises e) h] (Raises e) h None
| seq_form_raises e h :
    SequencerRun [EvInitBrowser (Returns tt) h;
                  EvFillRegistrationForm (Raises e)] (Raises e) h None
| seq_password_raises e h :
    SequencerRun [EvInitBrowser (Returns tt) h;
                  EvFillRegistrationForm (Returns tt);
                  confirm_form;
                  EvFillPassword (Raises e)] (Raises e) h None
| seq_info_raises e h :
    SequencerRun [EvInitBrowser (Returns tt) h;
                  EvFillRegistrationForm (Returns tt);
                  confirm_form;
                  EvFillPassword (Returns tt);
                  confirm_verification;
                  EvGetUserInfo (Raises e)] (Raises e) h None
| seq_token_raises e h :
    SequencerRun [EvInitBrowser (Returns tt) h;
                  EvFillRegistrationForm (Returns tt);
                  confirm_form;
                  EvFillPassword (Returns tt);
                  confirm_verification;
                  EvGetUserInfo (Returns tt);
                  EvGetCursorToken (Raises e)] (Raises e) h None
| seq_done token h :
    SequencerRun ([EvInitBrowser (Returns tt) h;
                   EvFillRegistrationForm (Returns tt);
                   confirm_form;
                   EvFillPassword (Returns tt);
                   confirm_verification;
                   EvGetUserInfo (Returns tt);
                   EvGetCursorToken (Returns token)] ++ terminal_steps token)
                 (Returns tt) h (Some token).

(** The report of the boundary for a body that ended with [out]. *)
Definition report (out : Outcome unit) : list Event :=
  match out with
  | Returns _ => []
  | Raises e => [EvReport e]
  end.

(** What follows the [try] block that ended with [out]: the teardown
    [registrar.browser.quit()], answering [q], when the handle [h] is
    set, then the report of the exception that is pending, the one of
    the teardown first. *)
Definition teardown (h : bool) (q out : Outcome unit) : list Event :=
  if h
  then EvBrowserQuit q :: report (match q with Raises e => Raises e | Returns _ => out end)
  else report out.

(** The sequencer steps of a trace, in the order they were taken. *)
Definition steps (tr : list Event) : list Step := omap step_of tr.

(** The order the specification gives. *)
Definition linear_order : list Step :=
  [BrowserInit; FillRegistrationForm; UserConfirmation; FillPassword;
   UserConfirmation; GetUserInfo; GetToken].

(** ** Stub collaborators and example states *)

Module Stub.

(** Everything succeeds; generation yields the given result. *)
Definition collaborators (gen : Outcome GenResult) (res : Outcome (Result unit))
    (token : Outcome (option string)) : Collaborators := {|
  env_path := ".env";
  update_env_vars_ok := λ _ _ _, true;
  backup_file_ok := λ _ _, true;
  generate_cursor_account_reply := λ _ _, gen;
  reset_reply := λ _ _, res;
  process_cookies_reply := λ _ _ _, res;
  new_registration_reply := λ _ _, Returns tt;
  init_browser_reply := λ _ _, mkInitReply (Returns tt) true;
  fill_registration_form_reply := λ _ _, Returns tt;
  fill_password_reply := λ _ _, Returns tt;
  get_user_info_reply := λ _ _, Returns tt;
  get_cursor_token_reply := λ _ _, token;
  browser_quit_reply := λ _ _, Returns tt
|}.

Definition ok_result (msg : string) : Result unit := mkResult true None msg.
Definition fail_result {T} (msg : string) : Result T := mkResult false None msg.

Definition happy : Collaborators :=
  collaborators (Returns (GenEnvelope (mkResult true (Some ("a@example.com", "pw1")) "ok")))
                (Returns (ok_result "done")) (Returns (Some "tok")).

(** Generation answers with the legacy plain tuple. *)
Definition legacy : Collaborators :=
  collaborators (Returns (GenTuple "b@example.com" "pw2"))
                (Returns (ok_result "done")) (Returns (Some "tok")).

Definition quota : Collaborators :=
  collaborators (Returns (GenEnvelope (fail_result "quota exceeded")))
                (Returns (ok_result "ID reset")) (Returns None).

(** The window as [setup_ui] leaves it with an empty environment,
    then with a domain typed in. *)
Definition fresh_entries : gmap string string :=
  {[ "DOMAIN" := ""; "EMAIL" := ""; "PASSWORD" := "";
     "cookie" := "WorkosCursorSessionToken" ]}.

Definition fresh : State := mkState fresh_entries (Some ∅) [] false.

Definition with_domain : State :=
  mkState (<["DOMAIN" := " example.com "]> fresh_entries) (Some ∅) [] false.

Definition with_cookie (c : string) : State :=
  mkState (<["cookie" := c]> fresh_entries) (Some ∅) [] false.

(** No [.env] file on disk. *)
Definition no_env_file (c : string) : State :=
  mkState (<["cookie" := c]> fresh_entries) None [] false.

End Stub.

(** ** The window: [UI.center_window], [CursorApp.setup_ui], [main] *)

(** [(screen - size) // 2], the offset [UI.center_window] computes on
    each axis; Python's [//] rounds down, as [Z.div] does. *)
Definition center_offset (screen size : Z) : Z := ((screen - size) `div` 2)%Z.

(** [UI.center_window], lines 161-165: the geometry string
    [f"{width}x{height}+{x}+{y}"] given to [window.geometry]. *)
Definition center_window (screenwidth screenheight width height : Z) : string :=
  let x := center_offset screenwidth width in
  let y := center_offset screenheight height in
  pretty width +:+ "x" +:+ pretty height +:+ "+" +:+ pretty x +:+ "+" +:+ pretty y.

(** [os.getenv(var_name)] on the environment [environ]. *)
Definition os_getenv (environ : gmap string string) (var_name : string) : option string :=
  environ !! var_name.

(** The entries [setup_ui] builds, lines 233-242: one per recognized
    variable, filled with the environment's value when [os.getenv]
    gives a true one, then the cookie entry with its default text.
    An Entry starts empty, so [insert(0, v)] leaves the text [v]. *)
Definition setup_ui_entries (cfg : WindowConfig)
    (environ : gmap string string) : gmap string string :=
  let account :=
    foldl (λ (es : gmap string string) (v : string * string),
             let entry :=
               if from_option truthy false (os_getenv environ (fst v))
               then default "" (os_getenv environ (fst v)) +:+ ""
               else "" in
             <[fst v := entry]> es)
          ∅ (env_vars cfg) in
  <["cookie" := "WorkosCursorSessionToken" +:+ ""]> account.

(** [WindowConfig.buttons], lines 196-201: (text, method name). *)
Definition buttons : list (string * string) :=
  [("生成账号", "generate_account"); ("自动注册", "auto_register");
   ("重置ID", "reset_ID"); ("更新账号信息", "update_auth")].

(** The loop over the buttons of [setup_ui], lines 249-258: button [i]
    goes to row [i // 2], column [i % 2]. *)
Definition button_grid (bs : list (string * string))
    : list (string * string * (nat * nat)) :=
  imap (λ i b, (fst b, snd b, ((i / 2)%nat, (i mod 2)%nat))) bs.

(** [UI.show_error], lines 174-176: [str(error)] is the message of the
    exception. *)
Definition show_error (title : string) (error : Exc) : M unit :=
  UI.show_message "错误" (title +:+ ": " +:+ exc_msg error) showerror.

(** The statements of the [try] block of [main], lines 417-421. *)
Inductive StartupStep :=
| StepLoadDotenv | StepSetupLogging | StepTk | StepCursorApp | StepMainloop.

(** What [main] does besides them: the log line of its handler and the
    dialog of [UI.show_error]. *)
Inductive StartupEvent :=
| StartupRan (s : StartupStep)
| StartupRaised (s : StartupStep) (e : Exc)
| StartupLogError (message : string)
| StartupShowError (title message : string).

(** How [main] ends: it returns, or the name [root] is read in the
    handler before it was bound. *)
Inductive StartupOutcome :=
| MainReturns
| MainUnboundLocalError (name : string).

(** The handler [except Exception as e] of [main], lines 422-424;
    [root] is bound once [root = tk.Tk()] has run. *)
Definition main_handler (root_bound : bool) (e : Exc) (tr : list StartupEvent)
    : list StartupEvent * StartupOutcome :=
  let tr1 := tr ++ [StartupLogError ("程序启动失败: " +:+ exc_msg e)] in
  if root_bound
  then (tr1 ++ [StartupShowError "错误" ("程序启动失败" +:+ ": " +:+ exc_msg e)],
        MainReturns)
  else (tr1, MainUnboundLocalError "root").

(** The [try] block of [main]: the statements run in order until one
    raises; [raises s] is the exception statement [s] raises, if any. *)
Fixpoint main_try (raises : StartupStep → option Exc) (todo : list StartupStep)
    (root_bound : bool) (tr : list StartupEvent)
    : list StartupEvent * StartupOutcome :=
  match todo with
  | [] => (tr, MainReturns)
  | s :: todo' =>
      match raises s with
      | Some e => main_handler root_bound e (tr ++ [StartupRaised s e])
      | None =>
          main_try raises todo'
            (match s with StepTk => true | _ => root_bound end)
            (tr ++ [StartupRan s])
      end
  end.

(** [main], lines 415-424. *)
Definition main (raises : StartupStep → option Exc) : list StartupEvent * StartupOutcome :=
  main_try raises
    [StepLoadDotenv; StepSetupLogging; StepTk; StepCursorApp; StepMainloop]
    false [].

(** Position of a statement in the [try] block of [main], and whether
    [root] is bound when it runs. *)
Definition step_index (s : StartupStep) : nat :=
  match s with
  | StepLoadDotenv => 0 | StepSetupLogging => 1 | StepTk => 2
  | StepCursorApp => 3 | StepMainloop => 4
  end.

Definition root_bound_at (s : StartupStep) : bool :=
  match s with
  | StepCursorApp | StepMainloop => true
  | _ => false
  end.

(** The exception a sequencer step raised, read off its event. *)
Definition step_failure (ev : Event) : option Exc :=
  match ev with
  | EvInitBrowser (Raises e) _ | EvFillRegistrationForm (Raises e)
  | EvFillPassword (Raises e) | EvGetUserInfo (Raises e)
  | EvGetCursorToken (Raises e) => Some e
  | _ => None
  end.

(** An update of recognized variables whose values are not empty and
    stripped. *)
Definition sound_update (u : gmap string string) : Prop :=
  ∀ k v, u !! k = Some v →
    (k = "DOMAIN" ∨ k = "EMAIL" ∨ k = "PASSWORD") ∧ v ≠ "" ∧ strip v = v.

(** ** More collaborators for concrete checks *)

Module Scenario.

(** Collaborators that answer the same whatever the state. *)
Definition make (backup_ok update_ok : bool) (gen : Outcome GenResult)
    (res proc : Outcome (Result unit)) (init : InitReply)
    (password : Outcome unit) (token : Outcome (option string))
    (quit : Outcome unit) : Collaborators := {|
  env_path := ".env";
  update_env_vars_ok := λ _ _ _, update_ok;
  backup_file_ok := λ _ _, backup_ok;
  generate_cursor_account_reply := λ _ _, gen;
  reset_reply := λ _ _, res;
  process_cookies_reply := λ _ _ _, proc;
  new_registration_reply := λ _ _, Returns tt;
  init_browser_reply := λ _ _, init;
  fill_registration_form_reply := λ _ _, Returns tt;
  fill_password_reply := λ _ _, password;
  get_user_info_reply := λ _ _, Returns tt;
  get_cursor_token_reply := λ _ _, token;
  browser_quit_reply := λ _ _, quit
|}.

Definition boom (msg : string) : Exc := mkExc Exception msg.

Definition good_gen : Outcome GenResult :=
  Returns (GenEnvelope (mkResult true (Some ("a@example.com", "pw1")) "ok")).

Definition handle : InitReply := mkInitReply (Returns tt) true.

(** [reset()] and [process_cookies()] answer a failure envelope. *)
Definition refused : Collaborators :=
  make true true good_gen (Returns (Stub.fail_result "denied"))
       (Returns (Stub.fail_result "bad cookie")) handle (Returns tt)
       (Returns (Some "tok")) (Returns tt).


(** [Utils.update_env_vars] answers [False]. *)
Definition write_fails : Collaborators :=
  make true false good_gen (Returns (Stub.ok_result "ID reset"))
       (Returns (Stub.ok_result "done")) handle (Returns tt)
       (Returns (Some "tok")) (Returns tt).

(** Generation answers success without payload, or raises. *)
Definition no_payload : Collaborators :=
  make true true (Returns (GenEnvelope (mkResult true None "ok")))
       (Returns (Stub.ok_result "done")) (Returns (Stub.ok_result "done"))
       handle (Returns tt) (Returns (Some "tok")) (Returns tt).

Definition gen_raises : Collaborators :=
  make true true (Raises (boom "network down"))
       (Returns (Stub.ok_result "done")) (Returns (Stub.ok_result "done"))
       handle (Returns tt) (Returns (Some "tok")) (Returns tt).

(** [fill_password] raises, then [quit] raises too. *)
Definition password_and_quit_raise : Collaborators :=
  make true true good_gen (Returns (Stub.ok_result "done"))
       (Returns (Stub.ok_result "done")) handle (Raises (boom "no such field"))
       (Returns (Some "tok")) (Raises (boom "browser gone")).

(** [init_browser] raises before the browser exists. *)
Definition no_browser : Collaborators :=
  make true true good_gen (Returns (Stub.ok_result "done"))
       (Returns (Stub.ok_result "done"))
       (mkInitReply (Raises (boom "no chrome")) false) (Returns tt)
       (Returns (Some "tok")) (Returns tt).

(** A store with a key the application does not know. *)
Definition with_extra_key : State :=
  mkState (<["EMAIL" := "x@example.com"]> Stub.fresh_entries)
          (Some {["API_KEY" := "k1"; "EMAIL" := "old@example.com"]}) [] false.

(** A domain typed in and a cookie that passes validation. *)
Definition with_domain_and_cookie : State :=
  mkState (<["cookie" := " WorkosCursorSessionToken=abc123 "]>
             (<["DOMAIN" := " example.com "]> Stub.fresh_entries))
          (Some ∅) [] false.

End Scenario.

Arguments strip : simpl never.
Arguments str_in : simpl never.
Arguments visible_updates : simpl never.
Arguments rotate : simpl never.

(** * Properties *)

(** ** Checks on concrete inputs *)

Example strip_spaces : strip "  abc	 " = "abc".
Proof. reflexivity. Qed.

Example strip_inner_space_kept : strip " a b " = "a b".
Proof. reflexivity. Qed.

Example strip_only_spaces : strip "   " = "".
Proof. reflexivity. Qed.

Example strip_ideographic_space : strip "　请输入 Cookie　" = "请输入 Cookie".
Proof. reflexivity. Qed.

Example in_found :
  str_in "WorkosCursorSessionToken=" "a=1; WorkosCursorSessionToken=abc" = true.
Proof. reflexivity. Qed.

Example in_empty_needle : str_in "" "abc" = true.
Proof. reflexivity. Qed.

Example in_not_found : str_in "WorkosCursorSessionToken=" "Workos=1" = false.
Proof. reflexivity. Qed.

Example rotate_keeps_newest :
  rotate 2 [{["A" := "1"]}; {["A" := "2"]}; {["A" := "3"]}]
  = [{["A" := "2"]}; {["A" := "3"]}].
Proof. reflexivity. Qed.

Example generate_account_envelope :
  (invoke (generate_account Stub.happy) Stub.fresh).2
  = [backup_event Stub.happy true;
     EvGenerate (Returns (GenEnvelope
       (mkResult true (Some ("a@example.com", "pw1")) "ok")));
     EvEntryDelete "EMAIL"; EvEntryInsert "EMAIL" "a@example.com";
     EvEntryDelete "PASSWORD"; EvEntryInsert "PASSWORD" "pw1";
     EvShowMessage showinfo "成功" "账号生成成功";
     EvUpdateEnvVars {["EMAIL" := "a@example.com"; "PASSWORD" := "pw1"]} true].
Proof. by vm_compute. Qed.

Example generate_account_quota :
  invoke (generate_account Stub.quota) Stub.fresh
  = (set_backups [∅] Stub.fresh,
     [backup_event Stub.quota true;
      EvGenerate (Returns (GenEnvelope (Stub.fail_result "quota exceeded")));
      EvReport (mkExc RuntimeError "quota exceeded")]).
Proof. by vm_compute. Qed.

Example update_auth_accepts :
  (invoke (update_auth Stub.happy) (Stub.with_cookie "WorkosCursorSessionToken=abc123")).2
  = [backup_event Stub.happy true;
     EvProcessCookies "WorkosCursorSessionToken=abc123" (Returns (Stub.ok_result "done"));
     EvShowMessage showinfo "成功" "done";
     EvEntryDelete "cookie"].
Proof. by vm_compute. Qed.

Example auto_register_empty_token :
  (invoke (auto_register Stub.quota) Stub.fresh).2
  = [EvLoadDotenv; EvNewRegistration (Returns tt);
     EvInitBrowser (Returns tt) true;
     EvFillRegistrationForm (Returns tt); confirm_form;
     EvFillPassword (Returns tt); confirm_verification;
     EvGetUserInfo (Returns tt); EvGetCursorToken (Returns None);
     EvShowMessage showwarning "警告" "获取Token失败";
     EvBrowserQuit (Returns tt)].
Proof. by vm_compute. Qed.

Example generate_account_legacy_tuple :
  (invoke (generate_account Stub.legacy) Stub.with_domain).2
  = [backup_event Stub.legacy true;
     EvUpdateEnvVars {["DOMAIN" := "example.com"]} true; EvLoadDotenv;
     EvGenerate (Returns (GenTuple "b@example.com" "pw2"));
     EvEntryDelete "EMAIL"; EvEntryInsert "EMAIL" "b@example.com";
     EvEntryDelete "PASSWORD"; EvEntryInsert "PASSWORD" "pw2";
     EvShowMessage showinfo "成功" "账号生成成功";
     EvUpdateEnvVars {["DOMAIN" := "example.com"; "EMAIL" := "b@example.com";
                       "PASSWORD" := "pw2"]} true].
Proof. by vm_compute. Qed.

Example update_auth_persists_domain :
  (invoke (update_auth Stub.happy) Scenario.with_domain_and_cookie).2
  = [backup_event Stub.happy true;
     EvProcessCookies "WorkosCursorSessionToken=abc123" (Returns (Stub.ok_result "done"));
     EvShowMessage showinfo "成功" "done";
     EvEntryDelete "cookie";
     EvUpdateEnvVars {["DOMAIN" := "example.com"]} true]
  ∧ env_file (invoke (update_auth Stub.happy) Scenario.with_domain_and_cookie).1
    = Some {["DOMAIN" := "example.com"]}.
Proof. by vm_compute. Qed.

Example reset_ID_persists_domain :
  invoke (reset_ID Stub.quota) Stub.with_domain
  = (set_env_file (Some {["DOMAIN" := "example.com"]}) Stub.with_domain,
     [EvReset (Returns (Stub.ok_result "ID reset"));
      EvShowMessage showinfo "成功" "ID reset";
      EvUpdateEnvVars {["DOMAIN" := "example.com"]} true]).
Proof. by vm_compute. Qed.

Example auto_register_persists_domain :
  (invoke (auto_register Stub.happy) Stub.with_domain).2
  = [EvUpdateEnvVars {["DOMAIN" := "example.com"]} true;
     EvLoadDotenv; EvNewRegistration (Returns tt);
     EvInitBrowser (Returns tt) true;
     EvFillRegistrationForm (Returns tt); confirm_form;
     EvFillPassword (Returns tt); confirm_verification;
     EvGetUserInfo (Returns tt); EvGetCursorToken (Returns (Some "tok"));
     EvEntryDelete "cookie";
     EvEntryInsert "cookie" "WorkosCursorSessionToken=tok";
     EvShowMessage showinfo "成功" "自动注册成功，Token已填入";
     EvBrowserQuit (Returns tt)].
Proof. by vm_compute. Qed.

(** ** Symbolic execution of workflow code *)

Lemma entries_set_env_file v st : entries (set_env_file v st) = entries st.
Proof. reflexivity. Qed.
Lemma entries_set_backups v st : entries (set_backups v st) = entries st.
Proof. reflexivity. Qed.
Lemma entries_set_registrar_browser v st :
  entries (set_registrar_browser v st) = entries st.
Proof. reflexivity. Qed.
Lemma entries_set_entries f st : entries (set_entries f st) = f (entries st).
Proof. reflexivity. Qed.
Lemma env_file_set_env_file v st : env_file (set_env_file v st) = v.
Proof. reflexivity. Qed.
Lemma env_file_set_backups v st : env_file (set_backups v st) = env_file st.
Proof. reflexivity. Qed.
Lemma env_file_set_registrar_browser v st :
  env_file (set_registrar_browser v st) = env_file st.
Proof. reflexivity. Qed.
Lemma env_file_set_entries f st : env_file (set_entries f st) = env_file st.
Proof. reflexivity. Qed.
Lemma backups_set_env_file v st : backups (set_env_file v st) = backups st.
Proof. reflexivity. Qed.
Lemma backups_set_backups v st : backups (set_backups v st) = v.
Proof. reflexivity. Qed.
Lemma backups_set_registrar_browser v st :
  backups (set_registrar_browser v st) = backups st.
Proof. reflexivity. Qed.
Lemma backups_set_entries f st : backups (set_entries f st) = backups st.
Proof. reflexivity. Qed.
Lemma registrar_browser_set_env_file v st :
  registrar_browser (set_env_file v st) = registrar_browser st.
Proof. reflexivity. Qed.
Lemma registrar_browser_set_backups v st :
  registrar_browser (set_backups v st) = registrar_browser st.
Proof. reflexivity. Qed.
Lemma registrar_browser_set_registrar_browser v st :
  registrar_browser (set_registrar_browser v st) = v.
Proof. reflexivity. Qed.
Lemma registrar_browser_set_entries f st :
  registrar_browser (set_entries f st) = registrar_browser st.
Proof. reflexivity. Qed.

Lemma run_bind {A B} (m : M A) (k : A → M B) st tr :
  bind m k st tr =
    match m st tr with
    | (Returns a, st', tr') => k a st' tr'
    | (Raises e, st', tr') => (Raises e, st', tr')
    end.
Proof. reflexivity. Qed.
Lemma run_ret {A} (a : A) st tr : ret a st tr = (Returns a, st, tr).
Proof. reflexivity. Qed.
Lemma run_raise {A} t msg st tr :
  raise (A := A) t msg st tr = (Raises (mkExc t msg), st, tr).
Proof. reflexivity. Qed.
Lemma run_reraise {A} e st tr : reraise (A := A) e st tr = (Raises e, st, tr).
Proof. reflexivity. Qed.
Lemma run_emit e st tr : emit e st tr = (Returns tt, st, tr ++ [e]).
Proof. reflexivity. Qed.
Lemma run_get st tr : get st tr = (Returns st, st, tr).
Proof. reflexivity. Qed.
Lemma run_modify f st tr : modify f st tr = (Returns tt, f st, tr).
Proof. reflexivity. Qed.
Lemma run_ask {A} (f : State → list Event → A) st tr :
  ask f st tr = (Returns (f st tr), st, tr).
Proof. reflexivity. Qed.
Lemma run_entry_get key st tr :
  entry_get key st tr = (Returns (entry_text (entries st) key), st, tr).
Proof. reflexivity. Qed.
Lemma run_entry_delete key st tr :
  entry_delete key st tr =
    (Returns tt, set_entries (λ es, <[key := ""]> es) st, tr ++ [EvEntryDelete key]).
Proof. reflexivity. Qed.
Lemma run_entry_insert key value st tr :
  entry_insert key value st tr =
    (Returns tt,
     set_entries (λ es, <[key := value +:+ entry_text es key]> es) st,
     tr ++ [EvEntryInsert key value]).
Proof. reflexivity. Qed.
Lemma run_load_dotenv st tr : load_dotenv st tr = (Returns tt, st, tr ++ [EvLoadDotenv]).
Proof. reflexivity. Qed.
Lemma run_show_success msg st tr :
  UI.show_success msg st tr =
    (Returns tt, st, tr ++ [EvShowMessage showinfo "成功" msg]).
Proof. reflexivity. Qed.
Lemma run_show_warning msg st tr :
  UI.show_warning msg st tr =
    (Returns tt, st, tr ++ [EvShowMessage showwarning "警告" msg]).
Proof. reflexivity. Qed.
Lemma run_wait_for_user msg st tr :
  wait_for_user msg st tr = (Returns tt, st, tr ++ [EvWaitForUser msg]).
Proof. reflexivity. Qed.

(** What the boundary makes of the result of a workflow body. *)
Lemma invoke_error_handler (body : M unit) (st : State) :
  invoke (error_handler body) st = handled (body st []).
Proof.
  unfold invoke, error_handler, handled.
  by destruct (body st []) as [[[]]].
Qed.

Create Rewrite HintDb state.
Create Rewrite HintDb run.

#[local] Hint Rewrite
  entries_set_env_file entries_set_backups entries_set_registrar_browser
  entries_set_entries env_file_set_env_file env_file_set_backups
  env_file_set_registrar_browser env_file_set_entries
  backups_set_env_file backups_set_backups backups_set_registrar_browser
  backups_set_entries registrar_browser_set_env_file
  registrar_browser_set_backups registrar_browser_set_registrar_browser
  registrar_browser_set_entries : state run.

#[local] Hint Rewrite
  @run_bind @run_ret @run_raise @run_reraise run_emit run_get run_modify
  @run_ask run_entry_get run_entry_delete run_entry_insert run_load_dotenv
  run_show_success run_show_warning run_wait_for_user : run.

Ltac exec :=
  repeat (progress (autorewrite with run;
                    cbn beta iota zeta; cbn [app negb handled])).

(** ** Text *)

Section TextFacts.

Lemma starts_with_spec (t l : list ascii) :
  starts_with t l = true ↔ ∃ q, l = t ++ q.
Proof.
  revert l. induction t as [|a t IH]; intros l; simpl.
  - split; [intros _; by exists l | done].
  - destruct l as [|b l].
    + split; [done | intros [q Hq]; discriminate].
    + rewrite andb_true_iff, Ascii.eqb_eq, IH. split.
      * intros [-> [q ->]]. by exists q.
      * intros [q Hq]. injection Hq as -> ->. eauto.
Qed.

Lemma find_in_spec (t l : list ascii) :
  find_in t l = true ↔ ∃ p q, l = p ++ t ++ q.
Proof.
  induction l as [|b l IH]; simpl.
  - rewrite orb_false_r, starts_with_spec. split.
    + intros [q Hq]. by exists [], q.
    + intros (p & q & Hpq). destruct p; [by exists q|discriminate].
  - rewrite orb_true_iff, starts_with_spec, IH. split.
    + intros [[q Hq]|(p & q & ->)]; [by exists [], q | by exists (b :: p), q].
    + intros ([|c p] & q & Hpq); simpl in Hpq.
      * left. by exists q.
      * right. injection Hpq as -> ->. by exists p, q.
Qed.

Lemma find_in_shorter (t u l : list ascii) :
  find_in (t ++ u) l = true → find_in t l = true.
Proof.
  rewrite !find_in_spec. intros (p & q & ->).
  exists p, (u ++ q). by rewrite <- app_assoc.
Qed.

Lemma find_in_inside (t p l q : list ascii) :
  find_in t l = true → find_in t (p ++ l ++ q) = true.
Proof.
  rewrite !find_in_spec. intros (p' & q' & ->).
  exists (p ++ p'), (q' ++ q). by rewrite <- !app_assoc.
Qed.

Lemma skip_space_suffix (l l' : list ascii) :
  skip_space l = Some l' → ∃ p, l = p ++ l' ∧ p ≠ [].
Proof.
  unfold skip_space. intros H.
  repeat case_match; simplify_eq.
  - by exists [a].
  - by exists [a; a0].
  - by exists [a; a0; a1].
Qed.

Lemma skip_space_back_suffix (l l' : list ascii) :
  skip_space_back l = Some l' → ∃ p, l = p ++ l' ∧ p ≠ [].
Proof.
  unfold skip_space_back. intros H.
  repeat case_match; simplify_eq.
  - by exists [a].
  - by exists [a; a0].
  - by exists [a; a0; a1].
Qed.

Variable skip : list ascii → option (list ascii).
Hypothesis skip_suffix : ∀ l l', skip l = Some l' → ∃ p, l = p ++ l' ∧ p ≠ [].

Lemma drop_spaces_suffix (n : nat) (l : list ascii) :
  ∃ p, l = p ++ drop_spaces skip n l.
Proof.
  revert l. induction n as [|n IH]; intros l; simpl.
  - by exists [].
  - destruct (skip l) as [l'|] eqn:Hs; [|by exists []].
    destruct (skip_suffix _ _ Hs) as (p & -> & _).
    destruct (IH l') as [p' Hp']. exists (p ++ p').
    by rewrite <- app_assoc, <- Hp'.
Qed.

(** The fuel [length l] is enough: nothing is left to drop. *)
Lemma drop_spaces_done (n : nat) (l : list ascii) :
  (length l ≤ n)%nat → skip (drop_spaces skip n l) = None.
Proof.
  revert l. induction n as [|n IH]; intros l Hn; simpl.
  - destruct l; [|simpl in Hn; lia].
    destruct (skip []) as [l'|] eqn:Hs; [|done].
    destruct (skip_suffix _ _ Hs) as (p & Hp & Hne).
    destruct p; [done | discriminate].
  - destruct (skip l) as [l'|] eqn:Hs; [|done].
    apply IH. destruct (skip_suffix _ _ Hs) as (p & -> & Hne).
    rewrite length_app in Hn. destruct p; [done | simpl in Hn; lia].
Qed.

End TextFacts.

Lemma bytes_text (l : list ascii) : bytes (text l) = l.
Proof. apply list_ascii_of_string_of_list_ascii. Qed.

Lemma text_bytes (s : string) : text (bytes s) = s.
Proof. apply string_of_list_ascii_of_string. Qed.

(** The stripped text is a piece of the text. *)
Lemma strip_inside (s : string) :
  ∃ p q, bytes s = p ++ bytes (strip s) ++ q.
Proof.
  unfold strip, rstrip_bytes, lstrip_bytes. rewrite bytes_text.
  destruct (drop_spaces_suffix _ skip_space_suffix (length (bytes s)) (bytes s))
    as [p Hp].
  set (l1 := drop_spaces skip_space _ _) in *.
  destruct (drop_spaces_suffix _ skip_space_back_suffix (length l1) (rev l1))
    as [q Hq].
  set (l2 := drop_spaces skip_space_back _ _) in *.
  exists p, (rev q). rewrite Hp at 1. f_equal.
  rewrite <- rev_app_distr, <- Hq. by rewrite rev_involutive.
Qed.

(** No whitespace is left at either end of a stripped text. *)
Lemma strip_complete (s : string) :
  skip_space_back (rev (bytes (strip s))) = None
  ∧ (skip_space (bytes (strip s)) = None ∨ strip s = "").
Proof.
  unfold strip, rstrip_bytes, lstrip_bytes. rewrite bytes_text.
  set (l1 := drop_spaces skip_space _ _).
  assert (H1 : skip_space l1 = None)
    by (apply drop_spaces_done; [apply skip_space_suffix | done]).
  assert (H2 : skip_space_back (drop_spaces skip_space_back (length l1) (rev l1)) = None).
  { apply drop_spaces_done; [apply skip_space_back_suffix|]. by rewrite length_rev. }
  set (l2 := drop_spaces skip_space_back _ _) in *.
  rewrite rev_involutive. split; [done|].
  destruct (drop_spaces_suffix _ skip_space_back_suffix (length l1) (rev l1)) as [q Hq].
  fold l2 in Hq.
  assert (Hl1 : l1 = rev l2 ++ rev q)
    by (rewrite <- rev_app_distr, <- Hq; by rewrite rev_involutive).
  destruct (rev l2) as [|a r] eqn:Hr; [by right|]. left.
  destruct (skip_space (a :: r)) as [r'|] eqn:Hs; [|done].
  exfalso. rewrite Hl1 in H1. clear -H1 Hs.
  unfold skip_space in *. simpl in *.
  repeat (case_match; simplify_eq/=); done.
Qed.

Lemma str_in_strip (t s : string) :
  str_in t (strip s) = true → str_in t s = true.
Proof.
  unfold str_in. intros H.
  destruct (strip_inside s) as (p & q & ->). by apply find_in_inside.
Qed.

Lemma drop_spaces_none skip (n : nat) (l : list ascii) :
  skip l = None → drop_spaces skip n l = l.
Proof. intros H. destruct n; [done|]. cbn. by rewrite H. Qed.

(** Stripping twice, as the comprehension of [_save_env_vars] does,
    is stripping once. *)
Lemma strip_idempotent (s : string) : strip (strip s) = strip s.
Proof.
  destruct (strip_complete s) as [Hback [Hfront|Hempty]].
  - unfold strip at 1. unfold lstrip_bytes, rstrip_bytes.
    rewrite (drop_spaces_none _ _ _ Hfront), (drop_spaces_none _ _ _ Hback).
    by rewrite rev_involutive, text_bytes.
  - by rewrite Hempty.
Qed.

Lemma truthy_false (s : string) : truthy s = false ↔ s = "".
Proof. by destruct s. Qed.

(** The test of [update_auth] asks for the token name and the equals
    sign; a text that passes it contains the token name. *)
Lemma token_eq_in_token (s : string) :
  str_in "WorkosCursorSessionToken=" s = true →
  str_in "WorkosCursorSessionToken" s = true.
Proof.
  unfold str_in.
  change (bytes "WorkosCursorSessionToken=")
    with (bytes "WorkosCursorSessionToken" ++ bytes "=").
  apply find_in_shorter.
Qed.

(** ** The visible fields *)

Lemma visible_updates_lookup (vars : list (string * string))
    (es : gmap string string) (k : string) :
  visible_updates vars es !! k =
    if bool_decide (k ∈ vars.*1) && truthy (strip (entry_text es k))
    then Some (strip (strip (entry_text es k)))
    else None.
Proof.
  unfold visible_updates.
  assert (G : ∀ d : gmap string string,
    foldl (λ (d : gmap string string) (v : string * string),
             let value := strip (entry_text es v.1) in
             if truthy value then <[v.1 := strip value]> d else d) d vars !! k
    = if bool_decide (k ∈ vars.*1) && truthy (strip (entry_text es k))
      then Some (strip (strip (entry_text es k))) else d !! k).
  { induction vars as [|[x lbl] vars IH]; intros d; [done|].
    cbn [foldl]. rewrite IH, fmap_cons. cbn [fst]. clear IH.
    destruct (decide (k = x)) as [->|Hne].
    - rewrite (bool_decide_eq_true_2 (x ∈ x :: vars.*1)) by apply list_elem_of_here.
      cbn [andb]. destruct (truthy (strip (entry_text es x))) eqn:Ht.
      + by rewrite andb_true_r, lookup_insert_eq, Tauto.if_same.
      + by rewrite andb_false_r.
    - assert (bool_decide (k ∈ x :: vars.*1) = bool_decide (k ∈ vars.*1)) as ->.
      { apply bool_decide_ext. rewrite elem_of_cons. tauto. }
      destruct (_ && _); [done|].
      destruct (truthy (strip (entry_text es x))); [|done].
      by rewrite lookup_insert_ne. }
  by rewrite G, lookup_empty.
Qed.

Lemma visible_updates_other_entry (vars : list (string * string))
    (es : gmap string string) (key value : string) :
  key ∉ vars.*1 →
  visible_updates vars (<[key := value]> es) = visible_updates vars es.
Proof.
  intros Hk. apply map_eq. intros k. rewrite !visible_updates_lookup.
  destruct (bool_decide (k ∈ vars.*1)) eqn:Hd; [|done].
  apply bool_decide_eq_true_1 in Hd.
  unfold entry_text. rewrite lookup_insert_ne; [done|]. by intros ->.
Qed.

Lemma dict_bool_false (d : gmap string string) : dict_bool d = false ↔ d = ∅.
Proof.
  unfold dict_bool. rewrite bool_decide_eq_false. split; [|tauto].
  intros H. by destruct (decide (d = ∅)).
Qed.

Lemma in_persist_trace (e : Event) (u : gmap string string) (ok : bool) :
  In e (persist_trace u ok) →
  e = EvUpdateEnvVars u ok ∨ e = EvShowMessage showwarning "警告" "保存环境变量失败".
Proof.
  unfold persist_trace.
  destruct (dict_bool u), ok; simpl; intuition (subst; auto).
Qed.

(** The update the comprehension of [_save_env_vars] builds from the
    fields [es]: the recognized variables whose field is not empty
    once stripped, each with its stripped text, and nothing else. *)
Lemma visible_updates_fields (es : gmap string string) (k v : string) :
  visible_updates (env_vars config) es !! k = Some v ↔
    (k = "DOMAIN" ∨ k = "EMAIL" ∨ k = "PASSWORD")
    ∧ strip (entry_text es k) ≠ ""
    ∧ v = strip (entry_text es k).
Proof.
  rewrite visible_updates_lookup, strip_idempotent.
  change ((env_vars config).*1) with ["DOMAIN"; "EMAIL"; "PASSWORD"].
  rewrite <- truthy_false.
  destruct (bool_decide _) eqn:Hd.
  - apply bool_decide_eq_true_1 in Hd.
    rewrite !elem_of_cons, elem_of_nil in Hd.
    destruct (truthy _); cbn [andb].
    + split; [intros [= <-]; intuition congruence | intros (_ & _ & ->); done].
    + split; [done | intros (_ & Hne & _); congruence].
  - apply bool_decide_eq_false_1 in Hd.
    rewrite !elem_of_cons, elem_of_nil in Hd. cbn [andb].
    split; [done | intros (Hk & _); tauto].
Qed.

(** Persisting an update, spelled out: nothing for an empty update;
    else the write, the warning when it answers [False], and the
    merged store when it answers [True]. *)
Lemma persist_cases (u : gmap string string) (ok : bool) (st : State) :
  (u = ∅ → persist_trace u ok = [])
  ∧ (u ≠ ∅ →
     persist_trace u ok
     = EvUpdateEnvVars u ok ::
       (if ok then [] else [EvShowMessage showwarning "警告" "保存环境变量失败"]))
  ∧ (u ≠ ∅ → ok = true →
     persist_state u ok st = set_env_file (Some (u ∪ default ∅ (env_file st))) st)
  ∧ (u = ∅ ∨ ok = false → persist_state u ok st = st).
Proof.
  unfold persist_trace, persist_state.
  destruct (dict_bool u) eqn:Hu.
  - assert (u ≠ ∅) as Hne.
    { intros Hempty. apply dict_bool_false in Hempty. congruence. }
    repeat apply conj; try done.
    + by intros _ ->.
    + intros [?| ->]; [done|]. by rewrite andb_false_r.
  - apply dict_bool_false in Hu. repeat apply conj; done.
Qed.

Lemma entries_persist_state u ok st : entries (persist_state u ok st) = entries st.
Proof. unfold persist_state. by destruct (dict_bool u && ok). Qed.

(** ** Running the helpers *)

Section Runs.

Variable C : Collaborators.

Lemma run_save_env_vars (st : State) (tr : list Event) :
  _save_env_vars C None st tr =
    let u := visible_updates (env_vars config) (entries st) in
    let ok := update_env_vars_ok C st tr u in
    (Returns tt, persist_state u ok st, tr ++ persist_trace u ok).
Proof.
  unfold _save_env_vars, persist_trace, persist_state, Utils_update_env_vars.
  cbn [from_option negb]. exec.
  destruct (dict_bool _); exec.
  - destruct (update_env_vars_ok _ _ _ _); exec; [done|].
    by rewrite <- app_assoc.
  - by rewrite app_nil_r.
Qed.

Lemma run_backup_env_file (st : State) (tr : list Event) :
  backup_env_file C st tr =
    match env_file st with
    | None =>
        (Raises (mkExc Exception ("未找到.env文件: " +:+ env_path C)), st, tr)
    | Some env =>
        if backup_file_ok C st tr
        then (Returns tt, set_backups (rotate 10 (backups st ++ [env])) st,
              tr ++ [backup_event C true])
        else (Raises (mkExc Exception "备份文件失败"), st,
              tr ++ [backup_event C false])
    end.
Proof.
  unfold backup_env_file, Utils_backup_file, backup_event, env_exists. exec.
  destruct (env_file st) as [env|] eqn:He; exec; [|done].
  destruct (backup_file_ok C st tr); exec; [|done]. by rewrite He.
Qed.

End Runs.

(** ** Update Auth, case by case *)

Section UpdateAuth.

Variable C : Collaborators.

Lemma update_auth_run (st : State) :
  let c := strip (entry_text (entries st) "cookie") in
  invoke (update_auth C) st =
    if negb (truthy c) then (st, [warning_no_cookie])
    else if negb (str_in "WorkosCursorSessionToken=" c)
    then (st, [warning_bad_format])
    else
      match env_file st with
      | None =>
          (st, [report_no_env_file C])
      | Some env =>
          if backup_file_ok C st []
          then
            let st1 := set_backups (rotate 10 (backups st ++ [env])) st in
            match process_cookies_reply C st1 [backup_event C true] c with
            | Raises e =>
                (st1, [backup_event C true; EvProcessCookies c (Raises e);
                       EvReport e])
            | Returns r =>
                if success r
                then
                  let st2 := set_entries (λ es, <["cookie" := ""]> es) st1 in
                  let tr2 := [backup_event C true;
                              EvProcessCookies c (Returns r);
                              EvShowMessage showinfo "成功" (message r);
                              EvEntryDelete "cookie"] in
                  let u := visible_updates (env_vars config) (entries st2) in
                  let ok := update_env_vars_ok C st2 tr2 u in
                  (persist_state u ok st2, tr2 ++ persist_trace u ok)
                else
                  (st1, [backup_event C true; EvProcessCookies c (Returns r);
                         EvReport (mkExc Exception (message r))])
            end
          else
            (st, [backup_event C false;
                  EvReport (mkExc Exception "备份文件失败")])
      end.
Proof.
  intros c. unfold update_auth. rewrite invoke_error_handler.
  unfold update_auth_body. exec. fold c.
  destruct (truthy c); exec; [|done].
  destruct (str_in _ c); exec; [|done].
  rewrite run_backup_env_file.
  destruct (env_file st) as [env|]; exec; [|done].
  destruct (backup_file_ok C st []); exec; [|done].
  unfold call_process_cookies. exec.
  destruct (process_cookies_reply _ _ _ _) as [r|e]; exec; [|done].
  unfold Result_bool. destruct (success r); exec; [|done].
  rewrite run_save_env_vars. exec. reflexivity.
Qed.

End UpdateAuth.

(** ** Claims about Update Auth *)

(** C2. A cookie text that is empty once stripped, or that lacks the
    required token name (in the text as typed or once stripped), makes
    [update_auth] show one warning and nothing else: the trace holds no
    backup and no call of the cookie-processing operation, and the
    state (entries, store, backup directory) is the one it started
    from. *)
Theorem C2_update_auth_rejects_malformed_cookie (C : Collaborators) (st : State) :
  let c := entry_text (entries st) "cookie" in
  strip c = ""
  ∨ str_in "WorkosCursorSessionToken" c = false
  ∨ str_in "WorkosCursorSessionToken" (strip c) = false →
  ∃ message,
    invoke (update_auth C) st = (st, [EvShowMessage showwarning "警告" message])
    ∧ count is_backup_call (invoke (update_auth C) st).2 = 0%nat
    ∧ count is_external_call (invoke (update_auth C) st).2 = 0%nat
    ∧ count is_store_write (invoke (update_auth C) st).2 = 0%nat.
Proof.
  intros c H. rewrite update_auth_run. fold c.
  destruct (truthy (strip c)) eqn:Ht; cbn [negb].
  - destruct (str_in "WorkosCursorSessionToken=" (strip c)) eqn:Hin; cbn [negb].
    + exfalso. apply token_eq_in_token in Hin.
      destruct H as [H|[H|H]].
      * rewrite H in Ht. discriminate.
      * apply str_in_strip in Hin. congruence.
      * congruence.
    + eexists. split; [reflexivity|]. by vm_compute.
  - eexists. split; [reflexivity|]. by vm_compute.
Qed.

Lemma C2_witness :
  ∃ message,
    invoke (update_auth Stub.happy) (Stub.with_cookie "  session=abc  ")
    = (Stub.with_cookie "  session=abc  ",
       [EvShowMessage showwarning "警告" message])
    ∧ count is_backup_call
        (invoke (update_auth Stub.happy) (Stub.with_cookie "  session=abc  ")).2 = 0%nat
    ∧ count is_external_call
        (invoke (update_auth Stub.happy) (Stub.with_cookie "  session=abc  ")).2 = 0%nat
    ∧ count is_store_write
        (invoke (update_auth Stub.happy) (Stub.with_cookie "  session=abc  ")).2 = 0%nat.
Proof.
  apply (C2_update_auth_rejects_malformed_cookie Stub.happy
           (Stub.with_cookie "  session=abc  ")).
  right. left. vm_compute. reflexivity.
Defined.



(** ** Generate Account, case by case *)

Lemma append_empty_r (s : string) : s +:+ "" = s.
Proof.
  induction s as [|a s IH]; [done|].
  change (String a s +:+ "") with (String a (s +:+ "")). by rewrite IH.
Qed.

Lemma entry_text_insert (es : gmap string string) (k v : string) :
  entry_text (<[k := v]> es) k = v.
Proof. unfold entry_text. by rewrite lookup_insert_eq. Qed.

Section GenerateAccount.

Variable C : Collaborators.

Lemma run_accepted (email password : string) (st : State) (tr : list Event) :
  handled
    ((entry_delete "EMAIL";;
      entry_insert "EMAIL" email;;
      entry_delete "PASSWORD";;
      entry_insert "PASSWORD" password;;
      UI.show_success "账号生成成功";;
      _save_env_vars C None) st tr)
  = accepted C email password st tr.
Proof.
  exec. rewrite run_save_env_vars. exec.
  unfold accepted, accepted_steps, set_entries.
  cbn [entries env_file backups registrar_browser].
  rewrite !entry_text_insert, !append_empty_r, !insert_insert_eq.
  rewrite <- !app_assoc. reflexivity.
Qed.

Lemma generate_account_run (st : State) :
  let d := strip (entry_text (entries st) "DOMAIN") in
  invoke (generate_account C) st =
    match env_file st with
    | None => (st, [report_no_env_file C])
    | Some env =>
        if backup_file_ok C st []
        then
          let st1 := set_backups (rotate 10 (backups st ++ [env])) st in
          if truthy d
          then
            if update_env_vars_ok C st1 [backup_event C true] {["DOMAIN" := d]}
            then generation C
                   (set_env_file (Some ({["DOMAIN" := d]} ∪ env)) st1)
                   ([backup_event C true] ++ domain_steps d)
            else (st1, [backup_event C true;
                        EvUpdateEnvVars {["DOMAIN" := d]} false;
                        EvReport (mkExc RuntimeError "保存域名失败")])
          else generation C st1 ([backup_event C true] ++ domain_steps d)
        else (st, [backup_event C false;
                   EvReport (mkExc Exception "备份文件失败")])
    end.
Proof.
  intros d. unfold generate_account. rewrite invoke_error_handler.
  unfold generate_account_body. exec.
  rewrite run_backup_env_file.
  destruct (env_file st) as [env|] eqn:Henv; exec; [|done].
  destruct (backup_file_ok C st []); exec; [|done].
  fold d. unfold domain_steps.
  assert (Hgen : ∀ st1 tr1,
    handled
      (match call_generate_cursor_account C st1 tr1 with
       | (Returns result, st', tr') =>
           (if negb (GenResult_bool result)
            then match result with
                 | GenEnvelope r => raise RuntimeError (message r)
                 | GenTuple _ _ =>
                     raise AttributeError "'tuple' object has no attribute 'message'"
                 end
            else match payload result with
                 | None => raise TypeError "cannot unpack non-iterable NoneType object"
                 | Some (email, password) =>
                     entry_delete "EMAIL";;
                     entry_insert "EMAIL" email;;
                     entry_delete "PASSWORD";;
                     entry_insert "PASSWORD" password;;
                     UI.show_success "账号生成成功";;
                     _save_env_vars C None
                 end) st' tr'
       | (Raises e, st', tr') => (Raises e, st', tr')
       end) = generation C st1 tr1).
  { intros st1 tr1. unfold generation, call_generate_cursor_account. exec.
    destruct (generate_cursor_account_reply C st1 tr1) as [g|e]; exec;
      [|by rewrite <- app_assoc].
    destruct g as [r|email password]; cbn [GenResult_bool payload].
    - unfold Result_bool. destruct (success r); cbn [negb]; [|by exec].
      destruct (data r) as [[email password]|]; [|by exec].
      apply run_accepted.
    - cbn [negb]. apply run_accepted. }
  destruct (truthy d); exec.
  - unfold Utils_update_env_vars. exec.
    destruct (update_env_vars_ok _ _ _ _); exec; [|done].
    rewrite Henv. cbn [default]. apply Hgen.
  - apply Hgen.
Qed.

End GenerateAccount.

(** ** Claims about the backup gate and the success path of Update Auth *)

(** C7. When the environment file does not exist, [generate_account]
    stops at the backup step: it reports the missing file and the
    state is the one it started from.  [update_auth] does the same once
    the cookie has passed validation; whatever the cookie, it leaves
    the state as it was, calls neither [Utils.backup_file] nor any
    external operation, and writes nothing to the store. *)
Theorem C7_missing_env_file_aborts (C : Collaborators) (st : State) :
  env_file st = None →
  let c := strip (entry_text (entries st) "cookie") in
  invoke (generate_account C) st = (st, [report_no_env_file C])
  ∧ (truthy c = true → str_in "WorkosCursorSessionToken=" c = true →
     invoke (update_auth C) st = (st, [report_no_env_file C]))
  ∧ (invoke (update_auth C) st).1 = st
  ∧ count is_backup_call (invoke (update_auth C) st).2 = 0%nat
  ∧ count is_external_call (invoke (update_auth C) st).2 = 0%nat
  ∧ count is_store_write (invoke (update_auth C) st).2 = 0%nat.
Proof.
  intros Henv c. rewrite generate_account_run, update_auth_run.
  cbv zeta. fold c. rewrite Henv. split; [done|].
  split; [by intros -> ->|].
  destruct (truthy c), (str_in _ c); cbn [negb]; done.
Qed.

Lemma C7_witness :
  invoke (generate_account Stub.happy)
         (Stub.no_env_file "WorkosCursorSessionToken=abc123")
  = (Stub.no_env_file "WorkosCursorSessionToken=abc123",
     [report_no_env_file Stub.happy]).
Proof.
  refine (proj1 (C7_missing_env_file_aborts Stub.happy
                   (Stub.no_env_file "WorkosCursorSessionToken=abc123") _)).
  reflexivity.
Defined.

(** C8. In an invocation of [update_auth] where the cookie-processing
    operation answered a success envelope [r], the cookie had passed
    validation and the trace is, in this order: the backup, the call of
    the operation on the stripped cookie, the success message with the
    message of [r], the clearing of the cookie field, then the
    persisting of the visible recognized fields.  What is persisted is
    the update [u] that holds exactly the variables DOMAIN, EMAIL and
    PASSWORD whose field is not empty once stripped, each with its
    stripped text: when [u] is not empty it is written to the store by
    one call of [Utils.update_env_vars], followed by a warning if that
    call answers [False]; when it is empty nothing follows.  The cookie
    field is empty afterwards, and the store holds [u] merged over what
    it held when the write succeeded, and what it held otherwise. *)
Theorem C8_update_auth_success_order (C : Collaborators) (st : State)
    (cookie_str : string) (r : Result unit) :
  let res := invoke (update_auth C) st in
  In (EvProcessCookies cookie_str (Returns r)) res.2 →
  success r = true →
  cookie_str = strip (entry_text (entries st) "cookie")
  ∧ truthy cookie_str = true
  ∧ str_in "WorkosCursorSessionToken=" cookie_str = true
  ∧ ∃ (u : gmap string string) (ok : bool) (persisted : list Event),
      res.2 = [backup_event C true;
               EvProcessCookies cookie_str (Returns r);
               EvShowMessage showinfo "成功" (message r);
               EvEntryDelete "cookie"] ++ persisted
      ∧ (∀ k v, u !! k = Some v ↔
           (k = "DOMAIN" ∨ k = "EMAIL" ∨ k = "PASSWORD")
           ∧ strip (entry_text (entries st) k) ≠ ""
           ∧ v = strip (entry_text (entries st) k))
      ∧ (u = ∅ → persisted = [])
      ∧ (u ≠ ∅ →
         persisted
         = EvUpdateEnvVars u ok ::
           (if ok then [] else [EvShowMessage showwarning "警告" "保存环境变量失败"]))
      ∧ entries res.1 = <["cookie" := ""]> (entries st)
      ∧ (u ≠ ∅ → ok = true →
         env_file res.1 = Some (u ∪ default ∅ (env_file st)))
      ∧ (u = ∅ ∨ ok = false → env_file res.1 = env_file st).
Proof.
  intros res. subst res. rewrite update_auth_run. cbv zeta.
  set (u := visible_updates (env_vars config) (entries st)).
  set (c := strip (entry_text (entries st) "cookie")).
  assert (Hu : visible_updates (env_vars config) (<["cookie" := ""]> (entries st)) = u).
  { apply visible_updates_other_entry. cbn. rewrite !elem_of_cons, elem_of_nil.
    intros [?|[?|[?|[]]]]; discriminate. }
  destruct (truthy c) eqn:Ht; cbn [negb];
    [|cbn; intros [?|[]]; discriminate].
  destruct (str_in _ c) eqn:Hin; cbn [negb];
    [|cbn; intros [?|[]]; discriminate].
  destruct (env_file st) as [env|] eqn:Henv;
    [|cbn; intros [?|[]]; discriminate].
  destruct (backup_file_ok C st []);
    [|cbn; intros [?|[?|[]]]; discriminate].
  destruct (process_cookies_reply _ _ _ _) as [r0|e];
    [|cbn; intros [?|[?|[?|[]]]]; discriminate].
  destruct (success r0) eqn:Hs.
  - autorewrite with state. rewrite Hu.
    set (ok := update_env_vars_ok _ _ _ _).
    intros Hin' _. cbn [snd fst] in *.
    assert (EvProcessCookies cookie_str (Returns r) = EvProcessCookies c (Returns r0))
      as Heq.
    { cbn in Hin'. destruct Hin' as [?|[?|[?|[?|Hp]]]]; try discriminate; [done|].
      apply in_persist_trace in Hp as [?|?]; discriminate. }
    injection Heq as -> ->.
    split; [done|]. split; [done|]. split; [done|].
    exists u, ok, (persist_trace u ok).
    set (st1 := set_entries _ _).
    destruct (persist_cases u ok st1) as (Pe & Pw & Ps & Pn).
    split; [done|].
    split; [intros k v; apply visible_updates_fields|].
    split; [exact Pe|]. split; [exact Pw|].
    split; [by rewrite entries_persist_state|].
    split.
    + intros Hne Hok. rewrite (Ps Hne Hok). unfold st1.
      autorewrite with state. by rewrite Henv.
    + intros Hor. rewrite (Pn Hor). unfold st1.
      autorewrite with state. by rewrite Henv.
  - cbn. intros [?|[Heq|[?|[]]]] Hr; try discriminate.
    injection Heq as -> ->. congruence.
Qed.

Lemma C8_witness :
  ∃ (u : gmap string string) (ok : bool) (persisted : list Event),
    (invoke (update_auth Stub.happy) Scenario.with_domain_and_cookie).2
    = [backup_event Stub.happy true;
       EvProcessCookies "WorkosCursorSessionToken=abc123"
         (Returns (Stub.ok_result "done"));
       EvShowMessage showinfo "成功" "done";
       EvEntryDelete "cookie"] ++ persisted
    ∧ u !! "DOMAIN" = Some "example.com"
    ∧ persisted
      = EvUpdateEnvVars u ok ::
        (if ok then [] else [EvShowMessage showwarning "警告" "保存环境变量失败"]).
Proof.
  destruct (C8_update_auth_success_order Stub.happy Scenario.with_domain_and_cookie
              "WorkosCursorSessionToken=abc123" (Stub.ok_result "done"))
    as (_ & _ & _ & u & ok & persisted & Htr & Hu & _ & Hw & _).
  - vm_compute. right. left. reflexivity.
  - reflexivity.
  - assert (HD : u !! "DOMAIN" = Some "example.com").
    { apply Hu. split; [by left|]. split; [by vm_compute|by vm_compute]. }
    exists u, ok, persisted. split; [exact Htr|]. split; [exact HD|].
    apply Hw. intros ->. rewrite lookup_empty in HD. discriminate.
Defined.

(** ** Reset ID, case by case *)

Lemma reset_ID_run (C : Collaborators) (st : State) :
  invoke (reset_ID C) st =
    match reset_reply C st [] with
    | Raises e => (st, [EvReset (Raises e); EvReport e])
    | Returns r =>
        if success r
        then
          let tr := [EvReset (Returns r);
                     EvShowMessage showinfo "成功" (message r)] in
          let u := visible_updates (env_vars config) (entries st) in
          let ok := update_env_vars_ok C st tr u in
          (persist_state u ok st, tr ++ persist_trace u ok)
        else (st, [EvReset (Returns r);
                   EvReport (mkExc Exception (message r))])
    end.
Proof.
  unfold reset_ID. rewrite invoke_error_handler.
  unfold reset_ID_body, call_reset. exec.
  destruct (reset_reply C st []) as [r|e]; exec; [|done].
  unfold Result_bool. destruct (success r); exec; [|done].
  rewrite run_save_env_vars. exec. reflexivity.
Qed.

(** ** Claims about [_save_env_vars] *)

(** C9. Called without an update, [_save_env_vars] builds the update
    from the recognized variables DOMAIN, EMAIL and PASSWORD whose
    field is not empty once stripped, each with its stripped text, and
    from nothing else.  It calls [Utils.update_env_vars] on that update
    when it is not empty, and warns only when that call answers
    [False].  A field that is empty once stripped is not in the update,
    so the store keeps what it held for that name.  When the three
    fields are empty the invocation does nothing: no write, no
    warning, same state. *)
Theorem C9_save_env_vars_only_nonempty_fields (C : Collaborators) (st : State) :
  let es := entries st in
  let u := visible_updates (env_vars config) es in
  let res := invoke (_save_env_vars C None) st in
  (∀ k v, u !! k = Some v ↔
      (k = "DOMAIN" ∨ k = "EMAIL" ∨ k = "PASSWORD")
      ∧ strip (entry_text es k) ≠ ""
      ∧ v = strip (entry_text es k))
  ∧ res.2 =
      (if dict_bool u
       then if update_env_vars_ok C st [] u
            then [EvUpdateEnvVars u true]
            else [EvUpdateEnvVars u false;
                  EvShowMessage showwarning "警告" "保存环境变量失败"]
       else [])
  ∧ (∀ k, strip (entry_text es k) = "" →
       u !! k = None
       ∧ default ∅ (env_file res.1) !! k = default ∅ (env_file st) !! k)
  ∧ (strip (entry_text es "DOMAIN") = "" →
     strip (entry_text es "EMAIL") = "" →
     strip (entry_text es "PASSWORD") = "" →
     res = (st, [])).
Proof.
  intros es u res.
  assert (Hres : res = (persist_state u (update_env_vars_ok C st [] u) st,
                        persist_trace u (update_env_vars_ok C st [] u))).
  { unfold res, invoke. by rewrite run_save_env_vars. }
  assert (Hlook : ∀ k v, u !! k = Some v ↔
      (k = "DOMAIN" ∨ k = "EMAIL" ∨ k = "PASSWORD")
      ∧ strip (entry_text es k) ≠ ""
      ∧ v = strip (entry_text es k)).
  { intros k v. unfold u. rewrite visible_updates_lookup, strip_idempotent.
    change ((env_vars config).*1) with ["DOMAIN"; "EMAIL"; "PASSWORD"].
    rewrite <- truthy_false.
    destruct (bool_decide _) eqn:Hd.
    - apply bool_decide_eq_true_1 in Hd.
      rewrite !elem_of_cons, elem_of_nil in Hd.
      destruct (truthy _); cbn [andb].
      + split; [intros [= <-]; intuition congruence | intros (_ & _ & ->); done].
      + split; [done | intros (_ & Hne & _); congruence].
    - apply bool_decide_eq_false_1 in Hd.
      rewrite !elem_of_cons, elem_of_nil in Hd. cbn [andb].
      split; [done | intros (Hk & _); tauto]. }
  assert (Hnone : ∀ k, strip (entry_text es k) = "" → u !! k = None).
  { intros k Hk. destruct (u !! k) as [v|] eqn:Hv; [|done].
    apply Hlook in Hv as (_ & Hne & _). congruence. }
  split; [exact Hlook|]. split; [|split].
  - rewrite Hres. cbn [snd]. unfold persist_trace.
    by destruct (dict_bool u), (update_env_vars_ok C st [] u).
  - intros k Hk. split; [by apply Hnone|].
    rewrite Hres. cbn [fst]. unfold persist_state.
    destruct (dict_bool u && _); [|done].
    autorewrite with state. cbn [from_option id].
    by rewrite lookup_union_r by by apply Hnone.
  - intros Hd He Hp.
    assert (u = ∅) as Hu.
    { apply map_eq. intros k. rewrite lookup_empty.
      destruct (u !! k) as [v|] eqn:Hv; [|done].
      apply Hlook in Hv as ([->|[->| ->]] & Hne & _); congruence. }
    rewrite Hres. unfold persist_state, persist_trace.
    apply dict_bool_false in Hu. by rewrite Hu.
Qed.

Lemma C9_witness :
  invoke (_save_env_vars Stub.happy None) Stub.fresh = (Stub.fresh, []).
Proof.
  refine (proj2 (proj2 (proj2
            (C9_save_env_vars_only_nonempty_fields Stub.happy Stub.fresh))) _ _ _).
  - reflexivity.
  - reflexivity.
  - reflexivity.
Defined.

(** ** Auto Register, case by case *)

Section AutoRegister.

Variable C : Collaborators.

Lemma run_call_registrar reply ev st tr :
  call_registrar reply ev st tr =
    (match reply st tr with Returns _ => Returns tt | Raises e => Raises e end,
     st, tr ++ [ev (reply st tr)]).
Proof. unfold call_registrar. exec. by destruct (reply st tr). Qed.

Lemma run_auto_register_try (st : State) (tr : list Event) :
  ∃ evs out h tok,
    auto_register_try C st tr
    = (out,
       set_entries (λ es, from_option (λ t, terminal_entries t es) es tok)
         (set_registrar_browser h st),
       tr ++ evs)
    ∧ SequencerRun evs out h tok.
Proof.
  unfold auto_register_try, init_browser, fill_registration_form, fill_password,
    get_user_info, get_cursor_token.
  exec. destruct (init_browser_reply C st tr) as [[[]|e] h] eqn:Hi;
    cbn [init_outcome init_handle]; exec.
  2: { exists [EvInitBrowser (Raises e) h], (Raises e), h, None.
       split; [by destruct st | constructor]. }
  rewrite run_call_registrar.
  destruct (fill_registration_form_reply _ _ _) as [[]|e]; exec.
  2: { eexists _, (Raises e), h, None. rewrite <- !app_assoc.
       split; [by destruct st | cbn [app]; constructor]. }
  rewrite run_call_registrar.
  destruct (fill_password_reply _ _ _) as [[]|e]; exec.
  2: { eexists _, (Raises e), h, None. rewrite <- !app_assoc.
       split; [by destruct st | cbn [app]; constructor]. }
  rewrite run_call_registrar.
  destruct (get_user_info_reply _ _ _) as [[]|e]; exec.
  2: { eexists _, (Raises e), h, None. rewrite <- !app_assoc.
       split; [by destruct st | cbn [app]; constructor]. }
  destruct (get_cursor_token_reply _ _ _) as [token|e]; exec.
  2: { eexists _, (Raises e), h, None. rewrite <- !app_assoc.
       split; [by destruct st | cbn [app]; constructor]. }
  exists ([EvInitBrowser (Returns tt) h;
           EvFillRegistrationForm (Returns tt);
           confirm_form;
           EvFillPassword (Returns tt);
           confirm_verification;
           EvGetUserInfo (Returns tt);
           EvGetCursorToken (Returns token)] ++ terminal_steps token),
         (Returns tt), h, (Some token).
  split; [|constructor].
  unfold terminal_steps, terminal_entries. cbn [from_option].
  destruct (from_option truthy false token) eqn:Ht; exec.
  - rewrite <- !app_assoc. cbn [app]. f_equal. f_equal.
    unfold set_entries, set_registrar_browser.
    cbn [entries env_file backups registrar_browser].
    by rewrite entry_text_insert, append_empty_r, insert_insert_eq.
  - rewrite <- !app_assoc. cbn [app]. by destruct st.
Qed.

Lemma run_try_finally {A} (body : M A) (fin : M unit) st tr :
  try_finally body fin st tr =
    match body st tr with
    | (r, st1, tr1) =>
        match fin st1 tr1 with
        | (Returns _, st2, tr2) => (r, st2, tr2)
        | (Raises e, st2, tr2) => (Raises e, st2, tr2)
        end
    end.
Proof. reflexivity. Qed.

Lemma auto_register_run (st : State) :
  let u := visible_updates (env_vars config) (entries st) in
  let ok := update_env_vars_ok C st [] u in
  let st0 := persist_state u ok st in
  let pre := persist_trace u ok ++ [EvLoadDotenv] in
  (∃ e, invoke (auto_register C) st
        = (st0, pre ++ [EvNewRegistration (Raises e); EvReport e]))
  ∨ (∃ evs out h tok q,
       SequencerRun evs out h tok
       ∧ invoke (auto_register C) st
         = (set_entries (λ es, from_option (λ t, terminal_entries t es) es tok)
              (set_registrar_browser h st0),
            pre ++ [EvNewRegistration (Returns tt)] ++ evs ++ teardown h q out)).
Proof.
  intros u ok st0 pre. unfold auto_register. rewrite invoke_error_handler.
  unfold auto_register_body. exec. rewrite run_save_env_vars. exec.
  fold u ok st0. cbn [app]. fold pre.
  unfold new_registration. exec.
  destruct (new_registration_reply C st0 pre) as [[]|e]; exec.
  2: { left. exists e. by rewrite <- app_assoc. }
  right. rewrite run_try_finally.
  destruct (run_auto_register_try (set_registrar_browser false st0)
              (pre ++ [EvNewRegistration (Returns tt)]))
    as (evs & out & h & tok & -> & Hrun).
  exists evs, out, h, tok.
  unfold auto_register_finally, browser_quit. exec.
  assert (Hst : ∀ f, set_entries f (set_registrar_browser h (set_registrar_browser false st0))
                     = set_entries f (set_registrar_browser h st0)) by done.
  rewrite Hst. unfold teardown. destruct h; exec.
  - rewrite run_call_registrar.
    set (q := browser_quit_reply C _ _). exists q. split; [done|].
    destruct q as [[]|e'], out as [[]|e]; exec; cbn [report];
      by rewrite <- ?app_assoc.
  - exists (Returns tt). split; [done|].
    destruct out as [[]|e]; exec; cbn [report]; by rewrite <- ?app_assoc, ?app_nil_r.
Qed.

End AutoRegister.

(** ** Counting in traces *)

Lemma count_app (p : Event → bool) (l1 l2 : list Event) :
  count p (l1 ++ l2) = (count p l1 + count p l2)%nat.
Proof. unfold count. by rewrite List.filter_app, length_app. Qed.

Lemma count_zero_not_in (p : Event → bool) (l : list Event) :
  count p l = 0%nat ↔ ∀ e, In e l → p e = false.
Proof.
  unfold count. induction l as [|a l IH]; cbn [List.filter]; [by split|].
  destruct (p a) eqn:Hp; cbn [length].
  - split; [done|]. intros H. specialize (H a (or_introl eq_refl)). congruence.
  - rewrite IH. split.
    + intros H e [<-|He]; auto.
    + intros H e He. apply H. by right.
Qed.

Lemma steps_app (l1 l2 : list Event) : steps (l1 ++ l2) = steps l1 ++ steps l2.
Proof. apply omap_app. Qed.

Lemma persist_trace_quiet (u : gmap string string) (ok : bool) :
  count is_quit (persist_trace u ok) = 0%nat
  ∧ count is_report (persist_trace u ok) = 0%nat
  ∧ count is_backup_call (persist_trace u ok) = 0%nat
  ∧ count is_external_call (persist_trace u ok) = 0%nat
  ∧ steps (persist_trace u ok) = [].
Proof. unfold persist_trace. by destruct (dict_bool u), ok. Qed.

Lemma terminal_steps_quiet (token : option string) :
  count is_quit (terminal_steps token) = 0%nat
  ∧ count is_report (terminal_steps token) = 0%nat
  ∧ count is_backup_call (terminal_steps token) = 0%nat
  ∧ count is_store_write (terminal_steps token) = 0%nat
  ∧ steps (terminal_steps token) = [].
Proof. unfold terminal_steps. by destruct (from_option truthy false token). Qed.

Lemma teardown_quiet (h : bool) (q out : Outcome unit) :
  count is_quit (teardown h q out) = (if h then 1 else 0)%nat
  ∧ count is_backup_call (teardown h q out) = 0%nat
  ∧ count is_store_write (teardown h q out) = 0%nat
  ∧ steps (teardown h q out) = [].
Proof. by destruct h, q, out. Qed.

(** A run of the [try] block never tears down, reports or backs up;
    its steps follow the linear order; the handle of its
    [init_browser] event is the one it ends with. *)
Lemma SequencerRun_facts evs out h tok :
  SequencerRun evs out h tok →
  count is_quit evs = 0%nat
  ∧ count is_report evs = 0%nat
  ∧ count is_backup_call evs = 0%nat
  ∧ count is_store_write evs = 0%nat
  ∧ steps evs `prefix_of` linear_order
  ∧ (∀ r h', In (EvInitBrowser r h') evs → h' = h)
  ∧ (∀ token, In (EvGetCursorToken (Returns token)) evs →
       tok = Some token ∧ out = Returns tt ∧ steps evs = linear_order).
Proof.
  intros Hrun. destruct Hrun as [e h|e h|e h|e h|e h|token h].
  1-5: unfold confirm_form, confirm_verification; repeat apply conj;
         [reflexivity..
         |by eexists
         |cbn; intros; intuition congruence
         |cbn; intros; exfalso; intuition congruence].
  destruct (terminal_steps_quiet token) as (Hq & Hr & Hb & Hw & Hs).
  rewrite !count_app, steps_app, Hq, Hr, Hb, Hw, Hs.
  assert (Hterm : ∀ e, In e (terminal_steps token) → step_of e = None).
  { intros e He. unfold terminal_steps in He.
    destruct (from_option truthy false token); cbn in He;
      intuition (subst; reflexivity). }
  unfold confirm_form, confirm_verification.
  repeat apply conj; try reflexivity.
  - intros r h' [H|H]%in_app_or.
    + cbn in H. intuition congruence.
    + apply Hterm in H. discriminate.
  - intros token' [H|H]%in_app_or.
    + cbn in H. repeat split; intuition congruence.
    + apply Hterm in H. discriminate.
Qed.

Lemma steps_nil_in (l : list Event) (e : Event) :
  steps l = [] → In e l → step_of e = None.
Proof.
  unfold steps. induction l as [|a l IH]; [done|].
  cbn. destruct (step_of a) eqn:Ha; [done|].
  intros Hl [<-|He]; auto.
Qed.

(** Where an event of the sequencer sits in the trace of
    [auto_register]: in the part the [try] block produced. *)
Lemma auto_register_step_in_try (pre evs : list Event) (h : bool)
    (q out : Outcome unit) (e : Event) :
  steps pre = [] →
  is_Some (step_of e) →
  In e (pre ++ [EvNewRegistration (Returns tt)] ++ evs ++ teardown h q out) →
  In e evs.
Proof.
  intros Hpre [s Hs] Hin.
  apply in_app_or in Hin as [Hin|Hin];
    [apply (steps_nil_in _ _ Hpre) in Hin; congruence|].
  apply in_app_or in Hin as [Hin|Hin];
    [cbn in Hin; destruct Hin as [<-|[]]; discriminate|].
  apply in_app_or in Hin as [Hin|Hin]; [done|].
  destruct (teardown_quiet h q out) as (_ & _ & _ & Ht).
  apply (steps_nil_in _ _ Ht) in Hin. congruence.
Qed.

(** ** Claims about Auto Register *)

(** C4. In an execution of [auto_register] where [init_browser] has
    created the handle [registrar.browser], however the execution
    ends, [registrar.browser.quit()] is called exactly once, and
    nothing but the report of the boundary follows it.  When
    [get_cursor_token] then returns an empty token, the trace ends
    with the warning, the teardown, and a report only if the teardown
    itself raised: with a teardown that returns, the workflow ends
    normally. *)
Theorem C4_teardown_exactly_once (C : Collaborators) (st : State)
    (r : Outcome unit) :
  let tr := (invoke (auto_register C) st).2 in
  In (EvInitBrowser r true) tr →
  count is_quit tr = 1%nat
  ∧ (∃ pre q reported,
       tr = pre ++ EvBrowserQuit q :: reported
       ∧ count is_external_call reported = 0%nat)
  ∧ (∀ token,
       In (EvGetCursorToken (Returns token)) tr →
       from_option truthy false token = false →
       ∃ pre q,
         tr = pre ++ [EvGetCursorToken (Returns token);
                      EvShowMessage showwarning "警告" "获取Token失败";
                      EvBrowserQuit q] ++ report q
         ∧ count is_report pre = 0%nat).
Proof.
  intros tr. subst tr.
  destruct (auto_register_run C st)
    as [[e ->]|(evs & out & h & tok & q & Hrun & ->)]; cbn [snd].
  all: set (u := visible_updates (env_vars config) (entries st)).
  all: set (ok := update_env_vars_ok C st [] u).
  all: destruct (persist_trace_quiet u ok) as (Hq & Hr & Hb & Hx & Hs).
  all: assert (Hpre : steps (persist_trace u ok ++ [EvLoadDotenv]) = [])
         by (rewrite steps_app, Hs; reflexivity).
  - intros Hin. exfalso.
    apply (steps_nil_in _ (EvInitBrowser r true)) in Hin; [discriminate|].
    rewrite steps_app, Hpre. reflexivity.
  - intros Hin.
    apply auto_register_step_in_try in Hin; [|done|by eexists].
    destruct (SequencerRun_facts _ _ _ _ Hrun)
      as (Eq & Er & Eb & Ew & Ep & Eh & Et).
    apply Eh in Hin as <-.
    destruct (teardown_quiet true q out) as (Tq & _).
    split; [|split].
    + rewrite !count_app, Hq, Eq, Tq. reflexivity.
    + exists ((persist_trace u ok ++ [EvLoadDotenv])
              ++ [EvNewRegistration (Returns tt)] ++ evs), q,
             (report (match q with Raises e => Raises e | Returns _ => out end)).
      split; [by rewrite <- !app_assoc|]. by destruct q, out.
    + intros token Hin Hempty.
      apply auto_register_step_in_try in Hin; [|done|by eexists].
      apply Et in Hin as (-> & -> & _).
      inversion Hrun; subst.
      unfold terminal_steps. rewrite Hempty.
      exists ((persist_trace u ok ++ [EvLoadDotenv])
              ++ [EvNewRegistration (Returns tt);
                  EvInitBrowser (Returns tt) true;
                  EvFillRegistrationForm (Returns tt);
                  confirm_form;
                  EvFillPassword (Returns tt);
                  confirm_verification;
                  EvGetUserInfo (Returns tt)]), q.
      split.
      * rewrite <- !app_assoc. cbn [app teardown]. by destruct q as [[]|e].
      * rewrite !count_app, Hr. reflexivity.
Qed.

Lemma C4_witness :
  count is_quit (invoke (auto_register Stub.quota) Stub.fresh).2 = 1%nat.
Proof.
  refine (proj1 (C4_teardown_exactly_once Stub.quota Stub.fresh (Returns tt) _)).
  vm_compute. right. right. left. reflexivity.
Defined.

(** The guard of the [finally] block: without a handle there is no
    teardown. *)
Lemma no_teardown_without_handle (C : Collaborators) (st : State)
    (r : Outcome unit) :
  In (EvInitBrowser r false) (invoke (auto_register C) st).2 →
  count is_quit (invoke (auto_register C) st).2 = 0%nat.
Proof.
  destruct (auto_register_run C st)
    as [[e ->]|(evs & out & h & tok & q & Hrun & ->)]; cbn [snd].
  all: set (u := visible_updates (env_vars config) (entries st)).
  all: set (ok := update_env_vars_ok C st [] u).
  all: destruct (persist_trace_quiet u ok) as (Hq & Hr & Hb & Hx & Hs).
  - intros _. rewrite !count_app, Hq. reflexivity.
  - intros Hin.
    apply auto_register_step_in_try in Hin;
      [|rewrite steps_app, Hs; reflexivity|by eexists].
    destruct (SequencerRun_facts _ _ _ _ Hrun) as (Eq & _ & _ & _ & _ & Eh & _).
    apply Eh in Hin as <-.
    destruct (teardown_quiet false q out) as (Tq & _).
    rewrite !count_app, Hq, Eq, Tq. reflexivity.
Qed.

(** How the [try] block can end: on the step that raised, which is
    then its last event, or past [get_cursor_token]. *)
Lemma SequencerRun_ends (evs : list Event) (out : Outcome unit) (h : bool)
    (tok : option (option string)) :
  SequencerRun evs out h tok →
  (∃ ev e pre, evs = pre ++ [ev] ∧ step_failure ev = Some e ∧ out = Raises e)
  ∨ (∃ token, In (EvGetCursorToken (Returns token)) evs).
Proof.
  intros Hrun. destruct Hrun as [e h|e h|e h|e h|e h|token h].
  - left. by exists (EvInitBrowser (Raises e) h), e, [].
  - left. by exists (EvFillRegistrationForm (Raises e)), e,
                    [EvInitBrowser (Returns tt) h].
  - left. by exists (EvFillPassword (Raises e)), e,
                    [EvInitBrowser (Returns tt) h;
                     EvFillRegistrationForm (Returns tt); confirm_form].
  - left. by exists (EvGetUserInfo (Raises e)), e,
                    [EvInitBrowser (Returns tt) h;
                     EvFillRegistrationForm (Returns tt); confirm_form;
                     EvFillPassword (Returns tt); confirm_verification].
  - left. by exists (EvGetCursorToken (Raises e)), e,
                    [EvInitBrowser (Returns tt) h;
                     EvFillRegistrationForm (Returns tt); confirm_form;
                     EvFillPassword (Returns tt); confirm_verification;
                     EvGetUserInfo (Returns tt)].
  - right. exists token. apply in_or_app. left.
    do 6 right. left. reflexivity.
Qed.

(** C5. The sequencer steps of any execution of [auto_register] are
    an initial part of the linear order browser-init,
    fill-registration-form, user confirmation, fill-password, user
    confirmation, get-user-info, get-token: none is skipped, repeated
    or taken out of order.  The sequence stops early only on a
    failure: either the construction of the registrar raised, and then
    no step was taken; or a step raised, and then no step follows it;
    or else get-token has returned.  When get-token has returned, all
    seven were taken, each returning, in that order and with nothing
    between them; what follows at once is, for a non-empty token, the
    cookie field set to "WorkosCursorSessionToken=" followed by the
    token and the success message, and otherwise the warning, the
    fields being left as they were. *)
Theorem C5_sequencer_linear_order (C : Collaborators) (st : State) :
  let res := invoke (auto_register C) st in
  steps res.2 `prefix_of` linear_order
  ∧ ((∃ e, In (EvNewRegistration (Raises e)) res.2 ∧ steps res.2 = [])
     ∨ (∃ ev e pre post,
          res.2 = pre ++ ev :: post
          ∧ step_failure ev = Some e
          ∧ steps post = [])
     ∨ (∃ token, In (EvGetCursorToken (Returns token)) res.2))
  ∧ ∀ token,
      In (EvGetCursorToken (Returns token)) res.2 →
      steps res.2 = linear_order
      ∧ ∃ pre terminal post h,
          res.2 = pre ++ [EvInitBrowser (Returns tt) h;
                          EvFillRegistrationForm (Returns tt);
                          confirm_form;
                          EvFillPassword (Returns tt);
                          confirm_verification;
                          EvGetUserInfo (Returns tt);
                          EvGetCursorToken (Returns token)]
                  ++ terminal ++ post
          ∧ steps pre = [] ∧ steps post = []
          ∧ if from_option truthy false token
            then
              terminal =
                [EvEntryDelete "cookie";
                 EvEntryInsert "cookie"
                   ("WorkosCursorSessionToken=" +:+ default "" token);
                 EvShowMessage showinfo "成功" "自动注册成功，Token已填入"]
              ∧ entries res.1 =
                  <["cookie" := "WorkosCursorSessionToken=" +:+ default "" token]>
                    (entries st)
            else
              terminal = [EvShowMessage showwarning "警告" "获取Token失败"]
              ∧ entries res.1 = entries st.
Proof.
  intros res. subst res.
  destruct (auto_register_run C st)
    as [[e ->]|(evs & out & h & tok & q & Hrun & ->)]; cbn [fst snd].
  all: set (u := visible_updates (env_vars config) (entries st)).
  all: set (ok := update_env_vars_ok C st [] u).
  all: destruct (persist_trace_quiet u ok) as (Hq & Hr & Hb & Hx & Hs).
  all: assert (Hpre : steps (persist_trace u ok ++ [EvLoadDotenv]) = [])
         by (rewrite steps_app, Hs; reflexivity).
  - rewrite steps_app, Hpre. split; [by eexists|]. split.
    { left. exists e. split; [|reflexivity].
      apply in_or_app. right. left. reflexivity. }
    intros token Hin. exfalso.
    apply (steps_nil_in _ (EvGetCursorToken (Returns token))) in Hin;
      [discriminate|].
    rewrite steps_app, Hpre. reflexivity.
  - destruct (SequencerRun_facts _ _ _ _ Hrun)
      as (Eq & Er & Eb & Ew & Ep & Eh & Et).
    destruct (teardown_quiet h q out) as (_ & _ & _ & Ts).
    assert (Hsteps : steps ((persist_trace u ok ++ [EvLoadDotenv])
                            ++ [EvNewRegistration (Returns tt)] ++ evs
                            ++ teardown h q out) = steps evs).
    { rewrite !steps_app, Hs, Ts. cbn. by rewrite app_nil_r. }
    rewrite Hsteps. split; [done|]. split.
    { right.
      destruct (SequencerRun_ends _ _ _ _ Hrun)
        as [(ev & e & pre & Hevs & Hfail & _)|(token & Hin)].
      - left.
        exists ev, e,
               ((persist_trace u ok ++ [EvLoadDotenv])
                ++ [EvNewRegistration (Returns tt)] ++ pre),
               (teardown h q out).
        split; [by rewrite Hevs, <- !app_assoc|]. by split.
      - right. exists token.
        apply in_or_app. right. apply in_or_app. right.
        apply in_or_app. by left. }
    intros token Hin.
    apply auto_register_step_in_try in Hin; [|done|by eexists].
    apply Et in Hin as (-> & -> & Hall). split; [done|].
    inversion Hrun; subst.
    exists ((persist_trace u ok ++ [EvLoadDotenv])
            ++ [EvNewRegistration (Returns tt)]),
           (terminal_steps token), (teardown h q (Returns tt)), h.
    split; [by rewrite <- !app_assoc|].
    split; [by rewrite steps_app, Hpre|]. split; [done|].
    autorewrite with state. cbn [from_option].
    rewrite entries_persist_state.
    unfold terminal_steps, terminal_entries.
    by destruct (from_option truthy false token).
Qed.

Lemma C5_witness :
  steps (invoke (auto_register Stub.happy) Stub.fresh).2 = linear_order.
Proof.
  refine (proj1 (proj2 (proj2 (C5_sequencer_linear_order Stub.happy Stub.fresh))
                   (Some "tok") _)).
  vm_compute. do 8 right. left. reflexivity.
Defined.

(** ** Generate Account: the generation step *)

Ltac in_inv H :=
  repeat match type of H with
    | In _ (_ ++ _) => apply in_app_or in H; destruct H as [H|H]
    | In _ (_ :: _) => destruct H as [H|H]
    | In _ [] => destruct H
    | In _ (persist_trace _ _) => apply in_persist_trace in H; destruct H as [H|H]
    | In _ (accepted_steps _ _) => unfold accepted_steps in H
    | In _ (domain_steps ?d) => unfold domain_steps in H; destruct (truthy d)
    end.

Section Generation.

Variable C : Collaborators.

(** If the trace shows that the operation returned [g], that is what
    the collaborator answered when [generation] called it. *)
Lemma generation_reply (st : State) (tr : list Event) (g : GenResult) :
  count is_external_call tr = 0%nat →
  In (EvGenerate (Returns g)) (generation C st tr).2 →
  generate_cursor_account_reply C st tr = Returns g.
Proof.
  intros Htr Hin. rewrite count_zero_not_in in Htr.
  unfold generation, accepted in Hin.
  destruct (generate_cursor_account_reply C st tr) as [g'|e]; cbn [snd] in Hin.
  - f_equal.
    destruct g' as [r|email password]; [destruct (success r), (data r) as [[]|]|];
      cbn [snd] in Hin; in_inv Hin;
      try (apply Htr in Hin; discriminate); congruence.
  - in_inv Hin; try (apply Htr in Hin; discriminate); discriminate.
Qed.

Lemma generation_extends (st : State) (tr : list Event) :
  ∃ rest, (generation C st tr).2 = tr ++ rest.
Proof.
  unfold generation, accepted.
  destruct (generate_cursor_account_reply C st tr) as [g|e]; [|by eexists].
  destruct g as [r|email password]; [destruct (success r), (data r) as [[]|]|];
    cbn [snd]; rewrite <- ?app_assoc; by eexists.
Qed.

End Generation.

(** ** Claims about Generate Account *)

Lemma accepted_facts (C : Collaborators) (email password : string)
    (st : State) (tr : list Event) :
  let es := <["PASSWORD" := password]> (<["EMAIL" := email]> (entries st)) in
  let u := visible_updates (env_vars config) es in
  ∃ ok : bool,
    (accepted C email password st tr).2
    = tr ++ accepted_steps email password ++ persist_trace u ok
    ∧ entries (accepted C email password st tr).1 = es
    ∧ (strip email ≠ "" → u !! "EMAIL" = Some (strip email))
    ∧ (strip password ≠ "" → u !! "PASSWORD" = Some (strip password))
    ∧ (ok = true → ∀ k v, u !! k = Some v →
         default ∅ (env_file (accepted C email password st tr).1) !! k = Some v).
Proof.
  intros es u. unfold accepted. cbv zeta. autorewrite with state.
  fold es. fold u. cbn [fst snd].
  set (ok := update_env_vars_ok C _ _ u). exists ok.
  split; [by rewrite <- app_assoc|].
  split; [by rewrite entries_persist_state|].
  split; [|split].
  - intros Hne. unfold u. rewrite visible_updates_lookup, strip_idempotent.
    assert (entry_text es "EMAIL" = email) as ->.
    { unfold es, entry_text. rewrite lookup_insert_ne by done.
      by rewrite lookup_insert_eq. }
    rewrite <- truthy_false in Hne.
    destruct (truthy (strip email)); done.
  - intros Hne. unfold u. rewrite visible_updates_lookup, strip_idempotent.
    assert (entry_text es "PASSWORD" = password) as ->
      by (unfold es; apply entry_text_insert).
    rewrite <- truthy_false in Hne.
    destruct (truthy (strip password)); done.
  - intros -> k v Hk. unfold persist_state.
    assert (dict_bool u = true) as ->.
    { destruct (dict_bool u) eqn:Hu; [done|].
      apply dict_bool_false in Hu. rewrite Hu, lookup_empty in Hk. done. }
    cbn [andb]. autorewrite with state. cbn [from_option id].
    by apply lookup_union_Some_l.
Qed.

(** The accepted pair, spelled out: the five steps on the fields, then
    the persisting of the update built from the fields as they are
    then. *)
Lemma accepted_cases (C : Collaborators) (email password : string)
    (st : State) (tr : list Event) :
  let es := <["PASSWORD" := password]> (<["EMAIL" := email]> (entries st)) in
  ∃ (u : gmap string string) (ok : bool) (persisted : list Event),
    (accepted C email password st tr).2
    = tr ++ [EvEntryDelete "EMAIL"; EvEntryInsert "EMAIL" email;
             EvEntryDelete "PASSWORD"; EvEntryInsert "PASSWORD" password;
             EvShowMessage showinfo "成功" "账号生成成功"] ++ persisted
    ∧ (∀ k v, u !! k = Some v ↔
         (k = "DOMAIN" ∨ k = "EMAIL" ∨ k = "PASSWORD")
         ∧ strip (entry_text es k) ≠ ""
         ∧ v = strip (entry_text es k))
    ∧ (u = ∅ → persisted = [])
    ∧ (u ≠ ∅ →
       persisted
       = EvUpdateEnvVars u ok ::
         (if ok then [] else [EvShowMessage showwarning "警告" "保存环境变量失败"]))
    ∧ entries (accepted C email password st tr).1 = es
    ∧ (strip email ≠ "" → u !! "EMAIL" = Some (strip email))
    ∧ (strip password ≠ "" → u !! "PASSWORD" = Some (strip password))
    ∧ (ok = true → ∀ k v, u !! k = Some v →
         default ∅ (env_file (accepted C email password st tr).1) !! k = Some v).
Proof.
  intros es.
  destruct (accepted_facts C email password st tr)
    as (ok & Htr & Hes & Hemail & Hpassword & Hstore).
  fold es in Htr, Hes, Hemail, Hpassword, Hstore.
  set (u := visible_updates (env_vars config) es) in *.
  destruct (persist_cases u ok st) as (Pe & Pw & _).
  exists u, ok, (persist_trace u ok).
  split; [exact Htr|].
  split; [intros k v; apply visible_updates_fields|].
  done.
Qed.

(** What [generate_account] does from the call of the generation
    operation on, by the answer of the operation. *)
Lemma generation_cases (C : Collaborators) (st : State) (tr : list Event) :
  let reply := generate_cursor_account_reply C st tr in
  let res := generation C st tr in
  ∃ rest,
    res.2 = tr ++ [EvGenerate reply] ++ rest
    ∧ (∀ e, reply = Raises e → rest = [EvReport e])
    ∧ (∀ r, reply = Returns (GenEnvelope r) → success r = false →
         rest = [EvReport (mkExc RuntimeError (message r))])
    ∧ (∀ email password,
         reply = Returns (GenTuple email password)
         ∨ (∃ r, reply = Returns (GenEnvelope r)
                 ∧ success r = true ∧ data r = Some (email, password)) →
         let es := <["PASSWORD" := password]> (<["EMAIL" := email]> (entries st)) in
         ∃ (u : gmap string string) (ok : bool) (persisted : list Event),
           rest = [EvEntryDelete "EMAIL"; EvEntryInsert "EMAIL" email;
                   EvEntryDelete "PASSWORD"; EvEntryInsert "PASSWORD" password;
                   EvShowMessage showinfo "成功" "账号生成成功"] ++ persisted
           ∧ (∀ k v, u !! k = Some v ↔
                (k = "DOMAIN" ∨ k = "EMAIL" ∨ k = "PASSWORD")
                ∧ strip (entry_text es k) ≠ ""
                ∧ v = strip (entry_text es k))
           ∧ (u = ∅ → persisted = [])
           ∧ (u ≠ ∅ →
              persisted
              = EvUpdateEnvVars u ok ::
                (if ok then []
                 else [EvShowMessage showwarning "警告" "保存环境变量失败"]))
           ∧ entries res.1 = es
           ∧ (strip email ≠ "" → u !! "EMAIL" = Some (strip email))
           ∧ (strip password ≠ "" → u !! "PASSWORD" = Some (strip password))
           ∧ (ok = true → ∀ k v, u !! k = Some v →
                default ∅ (env_file res.1) !! k = Some v)).
Proof.
  intros reply res. subst reply res. unfold generation.
  assert (Hacc : ∀ g email password,
    ∃ rest,
      (accepted C email password st (tr ++ [EvGenerate (Returns g)])).2
      = tr ++ [EvGenerate (Returns g)] ++ rest
      ∧ ∃ (u : gmap string string) (ok : bool) (persisted : list Event),
          rest = [EvEntryDelete "EMAIL"; EvEntryInsert "EMAIL" email;
                  EvEntryDelete "PASSWORD"; EvEntryInsert "PASSWORD" password;
                  EvShowMessage showinfo "成功" "账号生成成功"] ++ persisted
          ∧ (∀ k v, u !! k = Some v ↔
               (k = "DOMAIN" ∨ k = "EMAIL" ∨ k = "PASSWORD")
               ∧ strip (entry_text
                          (<["PASSWORD" := password]>
                             (<["EMAIL" := email]> (entries st))) k) ≠ ""
               ∧ v = strip (entry_text
                              (<["PASSWORD" := password]>
                                 (<["EMAIL" := email]> (entries st))) k))
          ∧ (u = ∅ → persisted = [])
          ∧ (u ≠ ∅ →
             persisted
             = EvUpdateEnvVars u ok ::
               (if ok then []
                else [EvShowMessage showwarning "警告" "保存环境变量失败"]))
          ∧ entries (accepted C email password st
                       (tr ++ [EvGenerate (Returns g)])).1
            = <["PASSWORD" := password]> (<["EMAIL" := email]> (entries st))
          ∧ (strip email ≠ "" → u !! "EMAIL" = Some (strip email))
          ∧ (strip password ≠ "" → u !! "PASSWORD" = Some (strip password))
          ∧ (ok = true → ∀ k v, u !! k = Some v →
               default ∅ (env_file (accepted C email password st
                                      (tr ++ [EvGenerate (Returns g)])).1) !! k
               = Some v)).
  { intros g email password.
    destruct (accepted_cases C email password st (tr ++ [EvGenerate (Returns g)]))
      as (u & ok & persisted & Htr & Hrest).
    eexists. split; [by rewrite Htr, <- app_assoc|].
    by exists u, ok, persisted. }
  destruct (generate_cursor_account_reply C st tr) as [g|e].
  - destruct g as [r|email password].
    + destruct (success r) eqn:Hs.
      * destruct (data r) as [[email password]|] eqn:Hd.
        -- destruct (Hacc (GenEnvelope r) email password) as (rest & Htr & Hrest).
           exists rest. split; [exact Htr|]. split; [done|].
           split; [intros r0 [= <-]; congruence|].
           intros email' password' [[=]|(r0 & [= <-] & _ & Hd')].
           rewrite Hd in Hd'. injection Hd' as <- <-. exact Hrest.
        -- eexists. cbn [snd]. split; [by rewrite <- ?app_assoc|].
           split; [done|]. split; [intros r0 [= <-]; congruence|].
           intros email' password' [[=]|(r0 & [= <-] & _ & Hd')].
           congruence.
      * eexists. cbn [snd]. split; [by rewrite <- ?app_assoc|].
        split; [done|]. split; [by intros r0 [= <-] _|].
        intros email' password' [[=]|(r0 & [= <-] & Hs' & _)]. congruence.
    + destruct (Hacc (GenTuple email password) email password)
        as (rest & Htr & Hrest).
      exists rest. split; [exact Htr|]. split; [done|]. split; [done|].
      intros email' password' [[= <- <-]|(r0 & [=] & _)]. exact Hrest.
  - exists [EvReport e]. cbn [snd]. split; [by rewrite <- ?app_assoc|].
    split; [by intros e0 [= <-]|]. split; [done|].
    intros email' password' [[=]|(r0 & [=] & _)].
Qed.

(** C6. When the environment file is there and its backup succeeds,
    the trace of [generate_account] is, in this order: the backup;
    when the domain field is not empty once stripped, the write of
    DOMAIN to the store (here answering [True]) and the reload of the
    environment; then the call of the generation operation, which is
    thus always made, in the state and after the trace these steps
    left; then what depends on its answer [reply].  An exception is
    reported, and so is the message of a failure envelope, and nothing
    more follows.  A plain tuple (email, password), and a success
    envelope whose data is (email, password), are accepted alike: the
    EMAIL and PASSWORD fields are overwritten, success is shown, and
    last the visible fields are persisted.  What is persisted is the
    update [u] that holds exactly the variables DOMAIN, EMAIL and
    PASSWORD whose field is then not empty once stripped, each with
    its stripped text, so the new email and password when they are
    not blank: it is written by one call of [Utils.update_env_vars]
    when it is not empty, with a warning if the call answers [False],
    and is in the store when it answers [True]. *)
Theorem C6_generate_account_step_order (C : Collaborators) (st : State)
    (env : gmap string string) :
  let d := strip (entry_text (entries st) "DOMAIN") in
  let st1 := set_backups (rotate 10 (backups st ++ [env])) st in
  let st2 :=
    if truthy d then set_env_file (Some ({["DOMAIN" := d]} ∪ env)) st1 else st1 in
  let before_call :=
    [backup_event C true]
    ++ (if truthy d
        then [EvUpdateEnvVars {["DOMAIN" := d]} true; EvLoadDotenv]
        else []) in
  let reply := generate_cursor_account_reply C st2 before_call in
  let res := invoke (generate_account C) st in
  env_file st = Some env →
  backup_file_ok C st [] = true →
  (truthy d = true →
   update_env_vars_ok C st1 [backup_event C true] {["DOMAIN" := d]} = true) →
  ∃ rest,
    res.2 = before_call ++ [EvGenerate reply] ++ rest
    ∧ (∀ e, reply = Raises e → rest = [EvReport e])
    ∧ (∀ r, reply = Returns (GenEnvelope r) → success r = false →
         rest = [EvReport (mkExc RuntimeError (message r))])
    ∧ (∀ email password,
         reply = Returns (GenTuple email password)
         ∨ (∃ r, reply = Returns (GenEnvelope r)
                 ∧ success r = true ∧ data r = Some (email, password)) →
         let es := <["PASSWORD" := password]> (<["EMAIL" := email]> (entries st)) in
         ∃ (u : gmap string string) (ok : bool) (persisted : list Event),
           rest = [EvEntryDelete "EMAIL"; EvEntryInsert "EMAIL" email;
                   EvEntryDelete "PASSWORD"; EvEntryInsert "PASSWORD" password;
                   EvShowMessage showinfo "成功" "账号生成成功"] ++ persisted
           ∧ (∀ k v, u !! k = Some v ↔
                (k = "DOMAIN" ∨ k = "EMAIL" ∨ k = "PASSWORD")
                ∧ strip (entry_text es k) ≠ ""
                ∧ v = strip (entry_text es k))
           ∧ (u = ∅ → persisted = [])
           ∧ (u ≠ ∅ →
              persisted
              = EvUpdateEnvVars u ok ::
                (if ok then []
                 else [EvShowMessage showwarning "警告" "保存环境变量失败"]))
           ∧ entries res.1 = es
           ∧ (strip email ≠ "" → u !! "EMAIL" = Some (strip email))
           ∧ (strip password ≠ "" → u !! "PASSWORD" = Some (strip password))
           ∧ (ok = true → ∀ k v, u !! k = Some v →
                default ∅ (env_file res.1) !! k = Some v)).
Proof.
  intros d st1 st2 before_call reply res Henv Hbackup Hdomain.
  assert (Hrun : res = generation C st2 before_call).
  { subst res. rewrite generate_account_run. cbv zeta. fold d.
    rewrite Henv, Hbackup. fold st1.
    subst st2 before_call. unfold domain_steps.
    destruct (truthy d) eqn:Ht; [|reflexivity].
    by rewrite (Hdomain eq_refl). }
  assert (Hes : entries st2 = entries st).
  { subst st2 st1. by destruct (truthy d). }
  destruct (generation_cases C st2 before_call)
    as (rest & Htr & Hraise & Hfail & Haccept).
  cbv zeta in Haccept. rewrite Hes in Haccept.
  rewrite Hrun. exists rest.
  split; [exact Htr|]. split; [exact Hraise|]. split; [exact Hfail|].
  exact Haccept.
Qed.

Lemma C6_witness :
  ∃ (u : gmap string string) (ok : bool) (persisted : list Event),
    (invoke (generate_account Stub.legacy) Stub.with_domain).2
    = [backup_event Stub.legacy true;
       EvUpdateEnvVars {["DOMAIN" := "example.com"]} true; EvLoadDotenv;
       EvGenerate (Returns (GenTuple "b@example.com" "pw2"));
       EvEntryDelete "EMAIL"; EvEntryInsert "EMAIL" "b@example.com";
       EvEntryDelete "PASSWORD"; EvEntryInsert "PASSWORD" "pw2";
       EvShowMessage showinfo "成功" "账号生成成功"] ++ persisted
    ∧ u !! "EMAIL" = Some "b@example.com"
    ∧ u !! "PASSWORD" = Some "pw2"
    ∧ u !! "DOMAIN" = Some "example.com"
    ∧ persisted
      = EvUpdateEnvVars u ok ::
        (if ok then [] else [EvShowMessage showwarning "警告" "保存环境变量失败"]).
Proof.
  destruct (C6_generate_account_step_order Stub.legacy Stub.with_domain ∅)
    as (rest & Htr & _ & _ & Haccept).
  - reflexivity.
  - reflexivity.
  - intros _. reflexivity.
  - destruct (Haccept "b@example.com" "pw2" (or_introl eq_refl))
      as (u & ok & persisted & Hrest & Hu & _ & Hw & _ & Hemail & Hpassword & _).
    assert (HE : u !! "EMAIL" = Some "b@example.com")
      by (apply Hemail; by vm_compute).
    assert (HP : u !! "PASSWORD" = Some "pw2")
      by (apply Hpassword; by vm_compute).
    assert (HD : u !! "DOMAIN" = Some "example.com").
    { apply Hu. split; [by left|]. split; by vm_compute. }
    exists u, ok, persisted.
    split; [rewrite Htr, Hrest; reflexivity|].
    split; [exact HE|]. split; [exact HP|]. split; [exact HD|].
    apply Hw. intros ->. rewrite lookup_empty in HD. discriminate.
Defined.

(** C3, as stated, fails: with a domain typed in, the DOMAIN key is
    written to the store before the generation operation is called, so
    a failure envelope "quota exceeded" leaves a store that differs
    from the one the invocation started with. *)
Lemma C3_counterexample :
  In (EvGenerate (Returns (GenEnvelope (Stub.fail_result "quota exceeded"))))
     (invoke (generate_account Stub.quota) Stub.with_domain).2
  ∧ env_file Stub.with_domain = Some ∅
  ∧ env_file (invoke (generate_account Stub.quota) Stub.with_domain).1
    = Some {["DOMAIN" := "example.com"]}
  ∧ env_file (invoke (generate_account Stub.quota) Stub.with_domain).1
    ≠ env_file Stub.with_domain.
Proof.
  split; [vm_compute; do 3 right; left; reflexivity|].
  split; [reflexivity|]. split; [by vm_compute|]. by vm_compute.
Qed.

(** C3, amended.  In an invocation of [generate_account] where the
    generation operation returned a failure envelope [r], the
    invocation ends at once with a single report, a [RuntimeError]
    whose message is the message of [r] (so "quota exceeded" for that
    envelope); the entries are as before; the backup directory has
    gained the backup made at the start; and the store is as before,
    apart from the DOMAIN key, written before the generation call when
    the domain field is not empty once stripped. *)
Theorem C3_generation_failure_keeps_store_but_domain (C : Collaborators)
    (st : State) (r : Result (string * string)) :
  let res := invoke (generate_account C) st in
  let d := strip (entry_text (entries st) "DOMAIN") in
  In (EvGenerate (Returns (GenEnvelope r))) res.2 →
  success r = false →
  (∃ pre,
     res.2 = pre ++ [EvGenerate (Returns (GenEnvelope r));
                     EvReport (mkExc RuntimeError (message r))]
     ∧ count is_report pre = 0%nat)
  ∧ entries res.1 = entries st
  ∧ ∃ env,
      env_file st = Some env
      ∧ backups res.1 = rotate 10 (backups st ++ [env])
      ∧ env_file res.1 =
          (if truthy d then Some ({["DOMAIN" := d]} ∪ env) else Some env).
Proof.
  intros res d. subst res. rewrite generate_account_run. cbv zeta. fold d.
  destruct (env_file st) as [env|] eqn:Henv;
    [|intros Hin; cbn [snd] in Hin; in_inv Hin; discriminate].
  destruct (backup_file_ok C st []);
    [|intros Hin; cbn [snd] in Hin; in_inv Hin; discriminate].
  assert (Hgen : ∀ st1,
    In (EvGenerate (Returns (GenEnvelope r)))
       (generation C st1 ([backup_event C true] ++ domain_steps d)).2 →
    success r = false →
    generation C st1 ([backup_event C true] ++ domain_steps d)
    = (st1, ([backup_event C true] ++ domain_steps d)
            ++ [EvGenerate (Returns (GenEnvelope r));
                EvReport (mkExc RuntimeError (message r))])).
  { intros st1 Hin Hs.
    apply generation_reply in Hin;
      [|unfold domain_steps; by destruct (truthy d)].
    unfold generation. rewrite Hin, Hs. cbv zeta. by rewrite <- !app_assoc. }
  assert (Hquiet : count is_report ([backup_event C true] ++ domain_steps d) = 0%nat)
    by (unfold domain_steps; by destruct (truthy d)).
  destruct (truthy d) eqn:Ht.
  - destruct (update_env_vars_ok _ _ _);
      [|intros Hin; cbn [snd] in Hin; in_inv Hin; discriminate].
    intros Hin Hs. rewrite (Hgen _ Hin Hs). cbn [fst snd].
    split; [by eexists|]. split; [done|]. by exists env.
  - intros Hin Hs. rewrite (Hgen _ Hin Hs). cbn [fst snd].
    split; [by eexists|]. split; [done|]. by exists env.
Qed.

Lemma C3_witness :
  entries (invoke (generate_account Stub.quota) Stub.with_domain).1
  = entries Stub.with_domain.
Proof.
  refine (proj1 (proj2 (C3_generation_failure_keeps_store_but_domain
                          Stub.quota Stub.with_domain
                          (Stub.fail_result "quota exceeded") _ _))).
  - vm_compute. do 3 right. left. reflexivity.
  - reflexivity.
Defined.

(** ** Backups and store writes *)

Section Backups.

Variable C : Collaborators.

(** A trace is backed when it opens with the backup or writes nothing
    to the store. *)
Lemma generate_account_backed (st : State) :
  (∃ rest, (invoke (generate_account C) st).2 = backup_event C true :: rest)
  ∨ count is_store_write (invoke (generate_account C) st).2 = 0%nat.
Proof.
  rewrite generate_account_run. cbv zeta.
  destruct (env_file st) as [env|]; [|by right].
  destruct (backup_file_ok C st []); [|by right].
  left. destruct (truthy _); [destruct (update_env_vars_ok _ _ _)|].
  - destruct (generation_extends C
                (set_env_file
                   (Some ({["DOMAIN" := strip (entry_text (entries st) "DOMAIN")]} ∪ env))
                   (set_backups (rotate 10 (backups st ++ [env])) st))
                ([backup_event C true]
                 ++ domain_steps (strip (entry_text (entries st) "DOMAIN"))))
      as [rest ->].
    rewrite <- app_assoc. by eexists.
  - by eexists.
  - destruct (generation_extends C
                (set_backups (rotate 10 (backups st ++ [env])) st)
                ([backup_event C true]
                 ++ domain_steps (strip (entry_text (entries st) "DOMAIN"))))
      as [rest ->].
    rewrite <- app_assoc. by eexists.
Qed.

Lemma update_auth_backed (st : State) :
  (∃ rest, (invoke (update_auth C) st).2 = backup_event C true :: rest)
  ∨ count is_store_write (invoke (update_auth C) st).2 = 0%nat.
Proof.
  rewrite update_auth_run. cbv zeta.
  destruct (truthy _); cbn [negb]; [|by right].
  destruct (str_in _ _); cbn [negb]; [|by right].
  destruct (env_file st) as [env|]; [|by right].
  destruct (backup_file_ok C st []); [|by right].
  left. destruct (process_cookies_reply _ _ _ _) as [r|e]; [|by eexists].
  destruct (success r); by eexists.
Qed.

Lemma backed_write_follows_backup (tr pre post : list Event) (e : Event) :
  (∃ rest, tr = backup_event C true :: rest) ∨ count is_store_write tr = 0%nat →
  tr = pre ++ e :: post →
  is_store_write e = true →
  In (backup_event C true) pre.
Proof.
  intros [[rest ->]|Hnone] Htr He.
  - destruct pre as [|b pre]; cbn [app] in Htr.
    + injection Htr as <- _. discriminate.
    + injection Htr as <- _. by left.
  - rewrite count_zero_not_in in Hnone.
    rewrite (Hnone e) in He; [discriminate|].
    rewrite Htr. apply in_or_app. right. by left.
Qed.

Lemma reset_ID_no_backup (st : State) :
  count is_backup_call (invoke (reset_ID C) st).2 = 0%nat.
Proof.
  rewrite reset_ID_run.
  destruct (reset_reply C st []) as [r|e]; [|done].
  destruct (success r); [|done]. cbv zeta. cbn [snd].
  rewrite count_app.
  by destruct (persist_trace_quiet
                 (visible_updates (env_vars config) (entries st))
                 (update_env_vars_ok C st
                    [EvReset (Returns r); EvShowMessage showinfo "成功" (message r)]
                    (visible_updates (env_vars config) (entries st))))
    as (_ & _ & -> & _).
Qed.

Lemma auto_register_no_backup (st : State) :
  count is_backup_call (invoke (auto_register C) st).2 = 0%nat.
Proof.
  destruct (auto_register_run C st)
    as [[e ->]|(evs & out & h & tok & q & Hrun & ->)]; cbn [snd].
  all: destruct (persist_trace_quiet
                   (visible_updates (env_vars config) (entries st))
                   (update_env_vars_ok C st []
                      (visible_updates (env_vars config) (entries st))))
         as (_ & _ & Hb & _).
  - rewrite !count_app, Hb. reflexivity.
  - destruct (SequencerRun_facts _ _ _ _ Hrun) as (_ & _ & Eb & _).
    destruct (teardown_quiet h q out) as (_ & Tb & _).
    rewrite !count_app, Hb, Eb, Tb. reflexivity.
Qed.

End Backups.

(** ** Claim about backups before store writes *)

(** C1, as stated, fails: [reset_ID] writes the visible fields to the
    store and never calls the backup step. *)
Lemma C1_counterexample :
  (invoke (reset_ID Stub.quota) Stub.with_domain).2
  = [EvReset (Returns (Stub.ok_result "ID reset"));
     EvShowMessage showinfo "成功" "ID reset";
     EvUpdateEnvVars {["DOMAIN" := "example.com"]} true]
  ∧ count is_backup_call (invoke (reset_ID Stub.quota) Stub.with_domain).2 = 0%nat
  ∧ env_file Stub.with_domain = Some ∅
  ∧ env_file (invoke (reset_ID Stub.quota) Stub.with_domain).1
    = Some {["DOMAIN" := "example.com"]}.
Proof. by vm_compute. Qed.

(** C1, amended.  In [generate_account] and in [update_auth], every
    write to the store is preceded, in the same invocation, by a
    backup of the environment file that succeeded.  [reset_ID] and
    [auto_register] have no backup step: their traces hold no call of
    [Utils.backup_file]. *)
Theorem C1_store_writes_follow_backup_where_there_is_one
    (C : Collaborators) (st : State) :
  (∀ pre e post,
     (invoke (generate_account C) st).2 = pre ++ e :: post →
     is_store_write e = true → In (backup_event C true) pre)
  ∧ (∀ pre e post,
       (invoke (update_auth C) st).2 = pre ++ e :: post →
       is_store_write e = true → In (backup_event C true) pre)
  ∧ count is_backup_call (invoke (reset_ID C) st).2 = 0%nat
  ∧ count is_backup_call (invoke (auto_register C) st).2 = 0%nat.
Proof.
  split; [|split; [|split]].
  - intros pre e post.
    apply backed_write_follows_backup, generate_account_backed.
  - intros pre e post.
    apply backed_write_follows_backup, update_auth_backed.
  - apply reset_ID_no_backup.
  - apply auto_register_no_backup.
Qed.

Lemma C1_witness :
  In (backup_event Stub.happy true) [backup_event Stub.happy true].
Proof.
  refine (proj1 (C1_store_writes_follow_backup_where_there_is_one
                   Stub.happy Stub.with_domain)
            [backup_event Stub.happy true]
            (EvUpdateEnvVars {["DOMAIN" := "example.com"]} true)
            (drop 2 (invoke (generate_account Stub.happy) Stub.with_domain).2)
            _ _).
  - by vm_compute.
  - reflexivity.
Defined.

(** * Further properties of [main.py] *)

(** ** The window *)

Example center_window_main :
  center_window 1920 1080 600 700 = "600x700+660+190".
Proof. by vm_compute. Qed.

Example center_window_small_screen :
  center_window 500 400 600 700 = "600x700+-50+-150".
Proof. by vm_compute. Qed.

(** X1. [UI.center_window] centres on each axis: the margin after the
    window equals the margin before it or exceeds it by one pixel, and
    the offset is negative exactly when the window is larger than the
    screen (the geometry string then reads "+-"). *)
Theorem X1_center_offset_balanced (screen size : Z) :
  let x := center_offset screen size in
  (x ≤ screen - size - x ≤ x + 1)%Z
  ∧ (0 ≤ x ↔ size ≤ screen)%Z.
Proof.
  unfold center_offset. cbv zeta.
  pose proof (Z.div_mod (screen - size) 2 ltac:(lia)) as Hd.
  pose proof (Z.mod_pos_bound (screen - size) 2 ltac:(lia)) as Hm.
  lia.
Qed.

Lemma X1_witness : (0 ≤ center_offset 1920 600)%Z.
Proof.
  apply (proj2 (X1_center_offset_balanced 1920 600)). lia.
Defined.

Lemma setup_ui_account_lookup (vars : list (string * string))
    (environ d : gmap string string) (k : string) :
  foldl (λ (es : gmap string string) (v : string * string),
           let entry :=
             if from_option truthy false (os_getenv environ (fst v))
             then default "" (os_getenv environ (fst v)) +:+ ""
             else "" in
           <[fst v := entry]> es) d vars !! k
  = if bool_decide (k ∈ vars.*1) then Some (default "" (environ !! k)) else d !! k.
Proof.
  revert d. induction vars as [|[x lbl] vars IH]; intros d; [done|].
  cbn [foldl]. rewrite IH, fmap_cons. cbn [fst]. clear IH.
  destruct (decide (k = x)) as [->|Hne].
  - rewrite (bool_decide_eq_true_2 (x ∈ x :: vars.*1)) by apply list_elem_of_here.
    destruct (bool_decide (x ∈ vars.*1)); [done|].
    rewrite lookup_insert_eq. unfold os_getenv. f_equal.
    destruct (environ !! x) as [[|a v]|]; cbn; [done| |done].
    apply append_empty_r.
  - assert (bool_decide (k ∈ x :: vars.*1) = bool_decide (k ∈ vars.*1)) as ->.
    { apply bool_decide_ext. rewrite elem_of_cons. tauto. }
    destruct (bool_decide _); [done|]. by rewrite lookup_insert_ne.
Qed.

(** X2. After [setup_ui] the entries are exactly the recognized
    variables and ['cookie'], so the lookups [self.entries[...]] of the
    workflows find their widget; the cookie entry holds the default
    text "WorkosCursorSessionToken" whatever the environment, and the
    entry of a recognized variable holds the environment's value, or
    nothing when the variable is unset or empty. *)
Theorem X2_setup_ui_entries (cfg : WindowConfig) (environ : gmap string string)
    (k : string) :
  let es := setup_ui_entries cfg environ in
  (is_Some (es !! k) ↔ k = "cookie" ∨ k ∈ (env_vars cfg).*1)
  ∧ es !! "cookie" = Some "WorkosCursorSessionToken"
  ∧ (k ∈ (env_vars cfg).*1 → k ≠ "cookie" →
     es !! k = Some (default "" (os_getenv environ k))).
Proof.
  unfold setup_ui_entries. cbv zeta. split; [|split].
  - destruct (decide (k = "cookie")) as [->|Hne].
    + rewrite lookup_insert_eq. split; [by left | by eexists].
    + rewrite lookup_insert_ne by done. rewrite setup_ui_account_lookup.
      destruct (bool_decide (k ∈ (env_vars cfg).*1)) eqn:Hd.
      * apply bool_decide_eq_true_1 in Hd. split; [by right | by eexists].
      * apply bool_decide_eq_false_1 in Hd. rewrite lookup_empty.
        split; [by intros [? ?] | intros [?|?]; done].
  - by rewrite lookup_insert_eq.
  - intros Hk Hne. rewrite lookup_insert_ne by done.
    rewrite setup_ui_account_lookup.
    by rewrite (bool_decide_eq_true_2 _ Hk).
Qed.

Lemma X2_witness :
  setup_ui_entries config {["EMAIL" := "a@example.com"]} !! "EMAIL"
  = Some "a@example.com".
Proof.
  refine (proj2 (proj2 (X2_setup_ui_entries config {["EMAIL" := "a@example.com"]}
                          "EMAIL")) _ _).
  - change ("EMAIL" ∈ ["DOMAIN"; "EMAIL"; "PASSWORD"]).
    apply list_elem_of_further, list_elem_of_here.
  - discriminate.
Defined.

Lemma setup_ui_entry_text (environ : gmap string string) (k : string) :
  k = "DOMAIN" ∨ k = "EMAIL" ∨ k = "PASSWORD" →
  entry_text (setup_ui_entries config environ) k = default "" (os_getenv environ k).
Proof.
  intros Hk. unfold entry_text, setup_ui_entries. cbv zeta.
  rewrite lookup_insert_ne by (destruct Hk as [->|[->| ->]]; discriminate).
  rewrite setup_ui_account_lookup.
  rewrite bool_decide_eq_true_2; [done|].
  change ((env_vars config).*1) with ["DOMAIN"; "EMAIL"; "PASSWORD"].
  rewrite !elem_of_cons. tauto.
Qed.

(** X3. Persisting straight after start-up ([setup_ui] then
    [_save_env_vars()]) writes back the recognized variables the
    environment gives a value that is not empty once stripped, each
    with that value stripped, and nothing for the others. *)
Theorem X3_setup_then_save (environ : gmap string string) (k v : string) :
  visible_updates (env_vars config) (setup_ui_entries config environ) !! k = Some v
  ↔ (k = "DOMAIN" ∨ k = "EMAIL" ∨ k = "PASSWORD")
    ∧ ∃ raw, os_getenv environ k = Some raw ∧ strip raw ≠ "" ∧ v = strip raw.
Proof.
  rewrite visible_updates_lookup, strip_idempotent.
  change ((env_vars config).*1) with ["DOMAIN"; "EMAIL"; "PASSWORD"].
  destruct (bool_decide _) eqn:Hd.
  - apply bool_decide_eq_true_1 in Hd.
    assert (Hk : k = "DOMAIN" ∨ k = "EMAIL" ∨ k = "PASSWORD").
    { rewrite !elem_of_cons, elem_of_nil in Hd. tauto. }
    rewrite (setup_ui_entry_text environ k Hk). cbn [andb]. unfold os_getenv.
    destruct (truthy (strip (default "" (environ !! k)))) eqn:Ht.
    + split.
      * intros [= <-]. split; [done|].
        destruct (environ !! k) as [raw|] eqn:Hraw; cbn [from_option id] in *.
        -- exists raw. split; [done|]. split; [|done].
           intros Hs. rewrite Hs in Ht. discriminate.
        -- discriminate.
      * intros (_ & raw & -> & _ & ->). done.
    + split; [done|]. intros (_ & raw & Hraw & Hne & _).
      rewrite Hraw in Ht. cbn [from_option id] in Ht.
      apply truthy_false in Ht. done.
  - apply bool_decide_eq_false_1 in Hd. cbn [andb].
    split; [done|]. intros (Hk & _).
    rewrite !elem_of_cons, elem_of_nil in Hd. tauto.
Qed.

Lemma X3_witness :
  visible_updates (env_vars config)
    (setup_ui_entries config {["EMAIL" := " a@example.com "]}) !! "EMAIL"
  = Some "a@example.com".
Proof.
  apply (proj2 (X3_setup_then_save {["EMAIL" := " a@example.com "]}
                  "EMAIL" "a@example.com")).
  split; [right; left; reflexivity|].
  exists " a@example.com ". split; [reflexivity|]. split; [|reflexivity].
  vm_compute. discriminate.
Defined.

Lemma button_grid_lookup (bs : list (string * string)) (i : nat) :
  button_grid bs !! i
  = (λ b, (fst b, snd b, ((i / 2)%nat, (i mod 2)%nat))) <$> bs !! i.
Proof. unfold button_grid. apply list_lookup_imap. Qed.

(** X4. The button loop of [setup_ui] puts button [i] of any list at
    row [i // 2], column [i % 2]: the column is 0 or 1, the cell gives
    the index back as [2 * row + column], so two buttons never share a
    cell; and no button is lost. *)
Theorem X4_button_grid_cells (bs : list (string * string)) (i j : nat)
    (ci cj : string * string * (nat * nat)) :
  button_grid bs !! i = Some ci →
  button_grid bs !! j = Some cj →
  (ci.2.2 < 2)%nat
  ∧ (2 * ci.2.1 + ci.2.2 = i)%nat
  ∧ bs !! i = Some (ci.1.1, ci.1.2)
  ∧ (ci.2 = cj.2 → i = j)
  ∧ length (button_grid bs) = length bs.
Proof.
  rewrite !button_grid_lookup. intros Hi Hj.
  destruct (bs !! i) as [[ti mi]|] eqn:Ei; [|discriminate].
  destruct (bs !! j) as [[tj mj]|] eqn:Ej; [|discriminate].
  assert (ci = (ti, mi, ((i / 2)%nat, (i mod 2)%nat))) as ->
    by (symmetry; exact (Some_inj _ _ Hi)).
  assert (cj = (tj, mj, ((j / 2)%nat, (j mod 2)%nat))) as ->
    by (symmetry; exact (Some_inj _ _ Hj)).
  cbn [fst snd].
  pose proof (Nat.div_mod_eq i 2). pose proof (Nat.div_mod_eq j 2).
  pose proof (Nat.mod_upper_bound i 2 ltac:(lia)).
  repeat apply conj; [lia|lia|done| |].
  - intros Heq.
    assert (i / 2 = j / 2)%nat by congruence.
    assert (i mod 2 = j mod 2)%nat by congruence. lia.
  - unfold button_grid. apply length_imap.
Qed.

Lemma X4_witness :
  button_grid buttons !! 3%nat = Some ("更新账号信息", "update_auth", (1%nat, 1%nat))
  ∧ (2 * 1 + 1 = 3)%nat.
Proof.
  split; [reflexivity|].
  refine (proj1 (proj2 (X4_button_grid_cells buttons 3 0
            ("更新账号信息", "update_auth", (1%nat, 1%nat))
            ("生成账号", "generate_account", (0%nat, 0%nat)) _ _))).
  - reflexivity.
  - reflexivity.
Defined.

(** ** Start-up *)

Example main_runs :
  main (λ _, None)
  = ([StartupRan StepLoadDotenv; StartupRan StepSetupLogging; StartupRan StepTk;
      StartupRan StepCursorApp; StartupRan StepMainloop], MainReturns).
Proof. reflexivity. Qed.

(** X5. When a statement of the [try] block of [main] raises, the
    handler logs the failure; it shows the error dialog only if the
    failure came after [root = tk.Tk()], that is from [CursorApp(root)]
    or [root.mainloop()].  When [load_dotenv], [setup_logging] or
    [tk.Tk()] itself raises, the handler reads [root] before it was
    bound: no dialog is shown and [main] ends with an
    [UnboundLocalError] on [root]. *)
Theorem X5_main_startup_failure (raises : StartupStep → option Exc)
    (s : StartupStep) (e : Exc) :
  raises s = Some e →
  (∀ s', (step_index s' < step_index s)%nat → raises s' = None) →
  let tr := (main raises).1 in
  (main raises).2
  = (if root_bound_at s then MainReturns else MainUnboundLocalError "root")
  ∧ In (StartupRaised s e) tr
  ∧ In (StartupLogError ("程序启动失败: " +:+ exc_msg e)) tr
  ∧ (In (StartupShowError "错误" ("程序启动失败: " +:+ exc_msg e)) tr
     ↔ root_bound_at s = true)
  ∧ (∀ s', (step_index s < step_index s')%nat → ¬ In (StartupRan s') tr).
Proof.
  intros Hs Hbefore. unfold main.
  assert (H0 : ∀ s', (step_index s' < step_index s)%nat → raises s' = None)
    by exact Hbefore.
  destruct s; cbn [main_try];
    repeat (first
      [ rewrite Hs
      | rewrite (H0 StepLoadDotenv) by (cbn; lia)
      | rewrite (H0 StepSetupLogging) by (cbn; lia)
      | rewrite (H0 StepTk) by (cbn; lia)
      | rewrite (H0 StepCursorApp) by (cbn; lia) ]);
    unfold main_handler; cbn [app fst snd root_bound_at];
    (repeat apply conj;
     first
       [ reflexivity
       | cbn; tauto
       | cbn; solve [intuition discriminate]
       | intros s' Hlt; destruct s'; cbn in Hlt |- *; try lia;
         solve [intuition discriminate] ]).
Qed.

Lemma X5_witness :
  (main (λ s, match s with
              | StepSetupLogging => Some (Scenario.boom "log dir")
              | _ => None
              end)).2
  = MainUnboundLocalError "root".
Proof.
  refine (proj1 (X5_main_startup_failure _ StepSetupLogging
                   (Scenario.boom "log dir") _ _)).
  - reflexivity.
  - intros s' Hlt. destruct s'; cbn in Hlt; [reflexivity|lia..].
Defined.

(** ** Reset ID *)

(** X6. When [reset()] answers a failure envelope, [reset_ID] reports
    an [Exception] with the envelope's message; when it raises, that
    exception is reported.  In both cases nothing else happens: no
    success message, no write to the store, and the state is the one
    the invocation started from. *)
Theorem X6_reset_ID_failure_changes_nothing (C : Collaborators) (st : State) :
  (∀ r, reset_reply C st [] = Returns r → success r = false →
     invoke (reset_ID C) st
     = (st, [EvReset (Returns r); EvReport (mkExc Exception (message r))]))
  ∧ (∀ e, reset_reply C st [] = Raises e →
       invoke (reset_ID C) st = (st, [EvReset (Raises e); EvReport e])).
Proof.
  split.
  - intros r Hr Hs. by rewrite reset_ID_run, Hr, Hs.
  - intros e Hr. by rewrite reset_ID_run, Hr.
Qed.

Lemma X6_witness :
  invoke (reset_ID Scenario.refused) Stub.with_domain
  = (Stub.with_domain,
     [EvReset (Returns (Stub.fail_result "denied"));
      EvReport (mkExc Exception "denied")]).
Proof.
  refine (proj1 (X6_reset_ID_failure_changes_nothing Scenario.refused
                   Stub.with_domain) (Stub.fail_result "denied") _ _).
  - reflexivity.
  - reflexivity.
Defined.

(** X7. When [reset()] answers a success envelope, [reset_ID] shows
    the envelope's message as the success message and then persists
    the visible fields: the update [u] that holds exactly the variables
    DOMAIN, EMAIL and PASSWORD whose field is not empty once stripped,
    each with its stripped text, is written by one call of
    [Utils.update_env_vars] when it is not empty.  The entries and the
    backup directory are untouched; no error is reported even if the
    write fails (a warning is shown instead and the store is as
    before); when the write succeeds the store holds [u] merged over
    what it held. *)
Theorem X7_reset_ID_success (C : Collaborators) (st : State) (r : Result unit) :
  reset_reply C st [] = Returns r →
  success r = true →
  let res := invoke (reset_ID C) st in
  ∃ (u : gmap string string) (ok : bool) (persisted : list Event),
    res.2 = [EvReset (Returns r); EvShowMessage showinfo "成功" (message r)]
            ++ persisted
    ∧ (∀ k v, u !! k = Some v ↔
         (k = "DOMAIN" ∨ k = "EMAIL" ∨ k = "PASSWORD")
         ∧ strip (entry_text (entries st) k) ≠ ""
         ∧ v = strip (entry_text (entries st) k))
    ∧ ok = update_env_vars_ok C st
             [EvReset (Returns r); EvShowMessage showinfo "成功" (message r)] u
    ∧ (u = ∅ → persisted = [])
    ∧ (u ≠ ∅ →
       persisted
       = EvUpdateEnvVars u ok ::
         (if ok then [] else [EvShowMessage showwarning "警告" "保存环境变量失败"]))
    ∧ entries res.1 = entries st
    ∧ backups res.1 = backups st
    ∧ count is_report res.2 = 0%nat
    ∧ (ok = false → env_file res.1 = env_file st)
    ∧ (u ≠ ∅ → ok = true →
       env_file res.1 = Some (u ∪ default ∅ (env_file st))).
Proof.
  intros Hr Hs res. subst res. rewrite reset_ID_run, Hr, Hs. cbv zeta.
  set (u := visible_updates (env_vars config) (entries st)).
  set (ok := update_env_vars_ok C st _ u).
  exists u, ok, (persist_trace u ok). cbn [fst snd].
  destruct (persist_trace_quiet u ok) as (_ & Hrep & _).
  destruct (persist_cases u ok st) as (Pe & Pw & Ps & Pn).
  repeat apply conj.
  - done.
  - intros k v. apply visible_updates_fields.
  - done.
  - exact Pe.
  - exact Pw.
  - apply entries_persist_state.
  - unfold persist_state. by destruct (dict_bool u && ok).
  - rewrite count_app, Hrep. reflexivity.
  - intros Hok. rewrite Pn; [done|by right].
  - intros Hne Hok. by rewrite (Ps Hne Hok).
Qed.

Lemma X7_witness :
  ∃ (u : gmap string string) (persisted : list Event),
    (invoke (reset_ID Scenario.write_fails) Stub.with_domain).2
    = [EvReset (Returns (Stub.ok_result "ID reset"));
       EvShowMessage showinfo "成功" "ID reset"] ++ persisted
    ∧ u !! "DOMAIN" = Some "example.com"
    ∧ persisted = [EvUpdateEnvVars u false;
                   EvShowMessage showwarning "警告" "保存环境变量失败"]
    ∧ count is_report (invoke (reset_ID Scenario.write_fails) Stub.with_domain).2
      = 0%nat.
Proof.
  destruct (X7_reset_ID_success Scenario.write_fails Stub.with_domain
              (Stub.ok_result "ID reset"))
    as (u & ok & persisted & Htr & Hu & Hok & _ & Hw & _ & _ & Hrep & _).
  - reflexivity.
  - reflexivity.
  - assert (HD : u !! "DOMAIN" = Some "example.com").
    { apply Hu. split; [by left|]. split; [by vm_compute|by vm_compute]. }
    exists u, persisted. split; [exact Htr|]. split; [exact HD|].
    split; [|exact Hrep].
    cbn in Hok. subst ok. apply Hw.
    intros ->. rewrite lookup_empty in HD. discriminate.
Defined.

(** ** The backup step *)



(** ** Generate Account *)

(** X9. When the domain field is not empty and the write of DOMAIN
    fails, [generate_account] raises "保存域名失败" before the generation
    operation is called: the trace is the backup, the failed write and
    the report; the entries and the store are as before, and the
    backup directory holds the backup made at the start. *)
Theorem X9_domain_write_failure_aborts (C : Collaborators) (st : State)
    (env : gmap string string) :
  let d := strip (entry_text (entries st) "DOMAIN") in
  let st1 := set_backups (rotate 10 (backups st ++ [env])) st in
  env_file st = Some env →
  backup_file_ok C st [] = true →
  truthy d = true →
  update_env_vars_ok C st1 [backup_event C true] {["DOMAIN" := d]} = false →
  invoke (generate_account C) st
  = (st1, [backup_event C true;
           EvUpdateEnvVars {["DOMAIN" := d]} false;
           EvReport (mkExc RuntimeError "保存域名失败")])
  ∧ count is_external_call (invoke (generate_account C) st).2 = 0%nat.
Proof.
  intros d st1 Henv Hbk Ht Hw. subst d st1.
  rewrite generate_account_run. cbv zeta.
  by rewrite Henv, Hbk, Ht, Hw.
Qed.

Lemma X9_witness :
  count is_external_call
    (invoke (generate_account Scenario.write_fails) Stub.with_domain).2 = 0%nat.
Proof.
  refine (proj2 (X9_domain_write_failure_aborts Scenario.write_fails
                   Stub.with_domain ∅ _ _ _ _)).
  - reflexivity.
  - reflexivity.
  - reflexivity.
  - reflexivity.
Defined.

(** What [generation] leaves when the operation gave no credentials. *)
Lemma generation_without_credentials (C : Collaborators) (st : State)
    (tr : list Event) (g : Outcome GenResult) (x : Exc) :
  generate_cursor_account_reply C st tr = g →
  (g = Raises x
   ∨ ∃ r, g = Returns (GenEnvelope r) ∧ success r = true ∧ data r = None
          ∧ x = mkExc TypeError "cannot unpack non-iterable NoneType object") →
  generation C st tr = (st, tr ++ [EvGenerate g; EvReport x]).
Proof.
  intros Hg [->|(r & -> & Hs & Hd & ->)]; unfold generation; rewrite Hg.
  - done.
  - rewrite Hs, Hd. cbv zeta. by rewrite <- app_assoc.
Qed.

Lemma generation_call (C : Collaborators) (st : State) (tr : list Event)
    (g : Outcome GenResult) :
  count is_external_call tr = 0%nat →
  In (EvGenerate g) (generation C st tr).2 →
  generate_cursor_account_reply C st tr = g.
Proof.
  intros Htr Hin. destruct g as [g|e]; [by apply generation_reply|].
  rewrite count_zero_not_in in Htr.
  unfold generation, accepted in Hin.
  destruct (generate_cursor_account_reply C st tr) as [g'|e']; cbn [snd] in Hin.
  - exfalso.
    destruct g' as [r|email password]; [destruct (success r), (data r) as [[]|]|];
      cbn [snd] in Hin; in_inv Hin;
      try (apply Htr in Hin; discriminate); discriminate.
  - in_inv Hin; try (apply Htr in Hin; discriminate); congruence.
Qed.

(** X10. When the generation operation raises, or answers a success
    envelope that carries no payload, [generate_account] ends right
    after the call with one report (the exception raised, or the
    [TypeError] of the failed unpacking): the EMAIL and PASSWORD
    fields keep their text, no success message is shown, and nothing
    is persisted after the call. *)
Theorem X10_generation_without_credentials (C : Collaborators) (st : State)
    (g : Outcome GenResult) (x : Exc) :
  let res := invoke (generate_account C) st in
  In (EvGenerate g) res.2 →
  (g = Raises x
   ∨ ∃ r, g = Returns (GenEnvelope r) ∧ success r = true ∧ data r = None
          ∧ x = mkExc TypeError "cannot unpack non-iterable NoneType object") →
  (∃ pre, res.2 = pre ++ [EvGenerate g; EvReport x]
          ∧ count is_report pre = 0%nat
          ∧ count is_external_call pre = 0%nat)
  ∧ entries res.1 = entries st.
Proof.
  intros res. subst res. rewrite generate_account_run. cbv zeta.
  set (d := strip (entry_text (entries st) "DOMAIN")).
  destruct (env_file st) as [env|] eqn:Henv;
    [|intros Hin; cbn [snd] in Hin; in_inv Hin; discriminate].
  destruct (backup_file_ok C st []);
    [|intros Hin; cbn [snd] in Hin; in_inv Hin; discriminate].
  assert (Hquiet : count is_report ([backup_event C true] ++ domain_steps d) = 0%nat
                   ∧ count is_external_call ([backup_event C true] ++ domain_steps d) = 0%nat)
    by (unfold domain_steps; by destruct (truthy d)).
  destruct Hquiet as [Hq1 Hq2].
  assert (Hgen : ∀ st1,
    In (EvGenerate g) (generation C st1 ([backup_event C true] ++ domain_steps d)).2 →
    (g = Raises x
     ∨ ∃ r, g = Returns (GenEnvelope r) ∧ success r = true ∧ data r = None
            ∧ x = mkExc TypeError "cannot unpack non-iterable NoneType object") →
    generation C st1 ([backup_event C true] ++ domain_steps d)
    = (st1, ([backup_event C true] ++ domain_steps d) ++ [EvGenerate g; EvReport x])).
  { intros st1 Hin Hcase. apply generation_call in Hin; [|done].
    by apply generation_without_credentials. }
  destruct (truthy d).
  - destruct (update_env_vars_ok _ _ _);
      [|intros Hin; cbn [snd] in Hin; in_inv Hin; discriminate].
    intros Hin Hcase. rewrite (Hgen _ Hin Hcase). cbn [fst snd].
    split; [by eexists|done].
  - intros Hin Hcase. rewrite (Hgen _ Hin Hcase). cbn [fst snd].
    split; [by eexists|done].
Qed.

Lemma X10_witness :
  entries (invoke (generate_account Scenario.no_payload) Stub.with_domain).1
  = entries Stub.with_domain.
Proof.
  refine (proj2 (X10_generation_without_credentials Scenario.no_payload
                   Stub.with_domain
                   (Returns (GenEnvelope (mkResult true None "ok")))
                   (mkExc TypeError "cannot unpack non-iterable NoneType object")
                   _ _)).
  - vm_compute. do 3 right. left. reflexivity.
  - right. exists (mkResult true None "ok"). by repeat split.
Defined.

(** ** Update Auth *)

(** X11. When [process_cookies] answers a failure envelope or raises,
    [update_auth] ends right after the call with one report (an
    [Exception] with the envelope's message, or the exception raised):
    the cookie field is not cleared, no entry changes, and nothing is
    written to the store; only the backup made before the call
    remains. *)
Theorem X11_update_auth_failure_keeps_cookie (C : Collaborators) (st : State)
    (cookie_str : string) (out : Outcome (Result unit)) (x : Exc) :
  let res := invoke (update_auth C) st in
  In (EvProcessCookies cookie_str out) res.2 →
  (out = Raises x
   ∨ ∃ r, out = Returns r ∧ success r = false ∧ x = mkExc Exception (message r)) →
  res.2 = [backup_event C true; EvProcessCookies cookie_str out; EvReport x]
  ∧ entries res.1 = entries st
  ∧ env_file res.1 = env_file st
  ∧ ∃ env, env_file st = Some env
           ∧ backups res.1 = rotate 10 (backups st ++ [env]).
Proof.
  intros res. subst res. rewrite update_auth_run. cbv zeta.
  set (c := strip (entry_text (entries st) "cookie")).
  destruct (truthy c); cbn [negb];
    [|intros Hin; cbn [snd] in Hin; in_inv Hin; discriminate].
  destruct (str_in _ c); cbn [negb];
    [|intros Hin; cbn [snd] in Hin; in_inv Hin; discriminate].
  destruct (env_file st) as [env|] eqn:Henv;
    [|intros Hin; cbn [snd] in Hin; in_inv Hin; discriminate].
  destruct (backup_file_ok C st []);
    [|intros Hin; cbn [snd] in Hin; in_inv Hin; discriminate].
  destruct (process_cookies_reply _ _ _ _) as [r0|e0].
  - destruct (success r0) eqn:Hs.
    + intros Hin Hcase. exfalso. cbn [snd] in Hin. in_inv Hin; try discriminate.
      injection Hin as <- <-.
      destruct Hcase as [?|(r & [= <-] & Hf & _)]; congruence.
    + intros Hin Hcase. cbn [snd fst] in *. in_inv Hin; try discriminate.
      injection Hin as <- <-.
      destruct Hcase as [?|(r & [= <-] & _ & ->)]; [discriminate|].
      repeat split; eauto.
  - intros Hin Hcase. cbn [snd fst] in *. in_inv Hin; try discriminate.
    injection Hin as <- <-.
    destruct Hcase as [[= <-]|(r & ? & _)]; [|discriminate].
    repeat split; eauto.
Qed.

Lemma X11_witness :
  entries (invoke (update_auth Scenario.refused)
             (Stub.with_cookie "WorkosCursorSessionToken=abc123")).1
  = entries (Stub.with_cookie "WorkosCursorSessionToken=abc123").
Proof.
  refine (proj1 (proj2 (X11_update_auth_failure_keeps_cookie Scenario.refused
            (Stub.with_cookie "WorkosCursorSessionToken=abc123")
            "WorkosCursorSessionToken=abc123"
            (Returns (Stub.fail_result "bad cookie"))
            (mkExc Exception "bad cookie") _ _))).
  - vm_compute. right. left. reflexivity.
  - right. exists (Stub.fail_result "bad cookie"). by repeat split.
Defined.

(** ** Persisting *)

Lemma run_save_env_vars_any (C : Collaborators)
    (updates : option (gmap string string)) (st : State) (tr : list Event) :
  _save_env_vars C updates st tr =
    let u := if from_option dict_bool false updates
             then default ∅ updates
             else visible_updates (env_vars config) (entries st) in
    let ok := update_env_vars_ok C st tr u in
    (Returns tt, persist_state u ok st, tr ++ persist_trace u ok).
Proof.
  unfold _save_env_vars, persist_trace, persist_state, Utils_update_env_vars.
  destruct (from_option dict_bool false updates); cbn [negb]; exec.
  all: destruct (dict_bool _); exec; [|by rewrite app_nil_r].
  all: destruct (update_env_vars_ok _ _ _ _); exec; [done|].
  all: by rewrite <- app_assoc.
Qed.


(** X13. An explicit update that is not empty is written as it is,
    whatever the fields show; an explicit empty one is treated as no
    update at all ([not updates] holds of both): the visible fields
    are persisted instead. *)
Theorem X13_save_env_vars_explicit_updates (C : Collaborators)
    (d : gmap string string) (st : State) (tr : list Event) :
  (d ≠ ∅ →
   ∃ ok : bool,
     _save_env_vars C (Some d) st tr
     = (Returns tt,
        (if ok then set_env_file (Some (d ∪ default ∅ (env_file st))) st else st),
        tr ++ EvUpdateEnvVars d ok
              :: (if ok then []
                  else [EvShowMessage showwarning "警告" "保存环境变量失败"])))
  ∧ _save_env_vars C (Some ∅) st tr = _save_env_vars C None st tr.
Proof.
  split.
  - intros Hd. rewrite run_save_env_vars_any. cbv zeta. cbn [from_option].
    assert (dict_bool d = true) as Hb.
    { destruct (dict_bool d) eqn:Hb; [done|]. by apply dict_bool_false in Hb. }
    rewrite Hb. cbn [from_option id].
    exists (update_env_vars_ok C st tr d).
    unfold persist_state, persist_trace. rewrite Hb. cbn [andb].
    by destruct (update_env_vars_ok C st tr d).
  - rewrite !run_save_env_vars_any. reflexivity.
Qed.

Lemma X13_witness :
  ∃ ok : bool,
    _save_env_vars Stub.happy (Some {["EMAIL" := "z@example.com"]}) Stub.with_domain []
    = (Returns tt,
       (if ok
        then set_env_file
               (Some ({["EMAIL" := "z@example.com"]}
                      ∪ default ∅ (env_file Stub.with_domain))) Stub.with_domain
        else Stub.with_domain),
       [] ++ EvUpdateEnvVars {["EMAIL" := "z@example.com"]} ok
             :: (if ok then []
                 else [EvShowMessage showwarning "警告" "保存环境变量失败"])).
Proof.
  refine (proj1 (X13_save_env_vars_explicit_updates Stub.happy
                   {["EMAIL" := "z@example.com"]} Stub.with_domain []) _).
  vm_compute. discriminate.
Defined.

(** ** What the workflows leave alone *)

Lemma generation_entries (C : Collaborators) (st : State) (tr : list Event) :
  entries (generation C st tr).1 = entries st
  ∨ ∃ email password,
      entries (generation C st tr).1
      = <["PASSWORD" := password]> (<["EMAIL" := email]> (entries st)).
Proof.
  unfold generation, accepted.
  destruct (generate_cursor_account_reply C st tr) as [g|e]; [|by left].
  destruct g as [r|email password];
    [destruct (success r); [destruct (data r) as [[email password]|]|]|];
    cbv zeta; cbn [fst]; try by left.
  all: right; exists email, password; by rewrite entries_persist_state.
Qed.

(** X14. No workflow changes an entry that is not its own:
    [generate_account] leaves the entries as they were or overwrites
    EMAIL and PASSWORD; [reset_ID] changes none; [update_auth] at most
    clears the cookie entry; [auto_register] at most sets the cookie
    entry to "WorkosCursorSessionToken=" followed by a token that is
    not empty.  In particular the DOMAIN entry is never written. *)
Theorem X14_workflows_touch_only_their_entries (C : Collaborators) (st : State) :
  (entries (invoke (generate_account C) st).1 = entries st
   ∨ ∃ email password,
       entries (invoke (generate_account C) st).1
       = <["PASSWORD" := password]> (<["EMAIL" := email]> (entries st)))
  ∧ entries (invoke (reset_ID C) st).1 = entries st
  ∧ (entries (invoke (update_auth C) st).1 = entries st
     ∨ entries (invoke (update_auth C) st).1 = <["cookie" := ""]> (entries st))
  ∧ (entries (invoke (auto_register C) st).1 = entries st
     ∨ ∃ t, t ≠ ""
            ∧ entries (invoke (auto_register C) st).1
              = <["cookie" := "WorkosCursorSessionToken=" +:+ t]> (entries st)).
Proof.
  repeat apply conj.
  - rewrite generate_account_run. cbv zeta.
    destruct (env_file st) as [env|]; [|by left].
    destruct (backup_file_ok C st []); [|by left].
    destruct (truthy _); [destruct (update_env_vars_ok _ _ _); [|by left]|].
    + destruct (generation_entries C
                  (set_env_file
                     (Some ({["DOMAIN" := strip (entry_text (entries st) "DOMAIN")]} ∪ env))
                     (set_backups (rotate 10 (backups st ++ [env])) st))
                  ([backup_event C true]
                   ++ domain_steps (strip (entry_text (entries st) "DOMAIN"))))
        as [H|H]; [left|right]; exact H.
    + destruct (generation_entries C
                  (set_backups (rotate 10 (backups st ++ [env])) st)
                  ([backup_event C true]
                   ++ domain_steps (strip (entry_text (entries st) "DOMAIN"))))
        as [H|H]; [left|right]; exact H.
  - rewrite reset_ID_run.
    destruct (reset_reply C st []) as [r|e]; [|done].
    destruct (success r); [|done]. apply entries_persist_state.
  - rewrite update_auth_run. cbv zeta.
    destruct (truthy _); cbn [negb]; [|by left].
    destruct (str_in _ _); cbn [negb]; [|by left].
    destruct (env_file st) as [env|]; [|by left].
    destruct (backup_file_ok C st []); [|by left].
    destruct (process_cookies_reply _ _ _ _) as [r|e]; [|by left].
    destruct (success r); [|by left].
    right. cbn [fst]. by rewrite entries_persist_state.
  - destruct (auto_register_run C st)
      as [[e ->]|(evs & out & h & tok & q & Hrun & ->)]; cbn [fst].
    + left. apply entries_persist_state.
    + autorewrite with state. rewrite entries_persist_state.
      destruct tok as [token|]; cbn [from_option]; [|by left].
      unfold terminal_entries.
      destruct token as [[|a t]|]; cbn [from_option truthy]; [by left| |by left].
      right. by exists (String a t).
Qed.

Lemma visible_updates_sound (es : gmap string string) :
  sound_update (visible_updates (env_vars config) es).
Proof.
  intros k v. rewrite visible_updates_lookup, strip_idempotent.
  change ((env_vars config).*1) with ["DOMAIN"; "EMAIL"; "PASSWORD"].
  destruct (bool_decide _) eqn:Hd; [|done].
  apply bool_decide_eq_true_1 in Hd. rewrite !elem_of_cons, elem_of_nil in Hd.
  destruct (truthy _) eqn:Ht; [|done]. cbn [andb]. intros [= <-].
  split; [tauto|]. split; [|apply strip_idempotent].
  intros Hs. rewrite Hs in Ht. discriminate.
Qed.

Lemma persist_trace_sound (es : gmap string string) (ok ok' : bool)
    (u : gmap string string) :
  In (EvUpdateEnvVars u ok')
     (persist_trace (visible_updates (env_vars config) es) ok) →
  sound_update u.
Proof.
  intros [H|H]%in_persist_trace; [|discriminate].
  injection H as -> _. apply visible_updates_sound.
Qed.

Lemma domain_steps_sound (x : string) (ok : bool) (u : gmap string string) :
  In (EvUpdateEnvVars u ok) ([EvUpdateEnvVars {["DOMAIN" := strip x]} ok]) →
  truthy (strip x) = true →
  sound_update u.
Proof.
  intros [H|[]] Ht. injection H as <-. intros k v.
  destruct (decide (k = "DOMAIN")) as [->|Hne].
  - rewrite lookup_singleton_eq. intros [= <-].
    split; [tauto|]. split; [|apply strip_idempotent].
    intros Hs. rewrite Hs in Ht. discriminate.
  - by rewrite lookup_singleton_ne.
Qed.

Lemma generation_writes (C : Collaborators) (st : State) (tr : list Event)
    (u : gmap string string) (ok : bool) :
  In (EvUpdateEnvVars u ok) (generation C st tr).2 →
  In (EvUpdateEnvVars u ok) tr ∨ sound_update u.
Proof.
  unfold generation, accepted.
  destruct (generate_cursor_account_reply C st tr) as [g|e]; cbn [snd].
  - destruct g as [r|email password];
      [destruct (success r); [destruct (data r) as [[email password]|]|]|];
      cbv zeta; cbn [snd]; intros Hin.
    + apply in_app_or in Hin as [Hin|Hin];
        [|right; by apply persist_trace_sound in Hin].
      in_inv Hin; try discriminate. by left.
    + in_inv Hin; try discriminate. by left.
    + in_inv Hin; try discriminate. by left.
    + apply in_app_or in Hin as [Hin|Hin];
        [|right; by apply persist_trace_sound in Hin].
      in_inv Hin; try discriminate. by left.
  - intros Hin. in_inv Hin; try discriminate. by left.
Qed.

(** X15. Whatever a workflow writes to the store, it is a value for
    DOMAIN, EMAIL or PASSWORD that is not empty and carries no
    surrounding whitespace: no workflow ever asks
    [Utils.update_env_vars] to write another key or to blank one. *)
Theorem X15_store_writes_are_recognized_and_stripped (C : Collaborators)
    (st : State) (w : M unit) (u : gmap string string) (ok : bool)
    (k v : string) :
  w = generate_account C ∨ w = reset_ID C
  ∨ w = update_auth C ∨ w = auto_register C →
  In (EvUpdateEnvVars u ok) (invoke w st).2 →
  u !! k = Some v →
  (k = "DOMAIN" ∨ k = "EMAIL" ∨ k = "PASSWORD") ∧ v ≠ "" ∧ strip v = v.
Proof.
  intros Hw Hin. revert k v. change (sound_update u).
  destruct Hw as [->|[->|[->| ->]]].
  - revert Hin. rewrite generate_account_run. cbv zeta.
    destruct (env_file st) as [env|];
      [|intros Hin; cbn [snd] in Hin; in_inv Hin; discriminate].
    destruct (backup_file_ok C st []);
      [|intros Hin; cbn [snd] in Hin; in_inv Hin; discriminate].
    unfold domain_steps.
    destruct (truthy _) eqn:Ht;
      [destruct (update_env_vars_ok _ _ _)|].
    + intros [Hin|Hin]%generation_writes; [|done].
      in_inv Hin; try discriminate.
      apply (domain_steps_sound (entry_text (entries st) "DOMAIN") ok);
        [|done].
      injection Hin as <- <-. by left.
    + intros Hin. cbn [snd] in Hin. in_inv Hin; try discriminate.
      apply (domain_steps_sound (entry_text (entries st) "DOMAIN") ok);
        [|done].
      injection Hin as <- <-. by left.
    + intros [Hin|Hin]%generation_writes; [|done].
      in_inv Hin; discriminate.
  - revert Hin. rewrite reset_ID_run.
    destruct (reset_reply C st []) as [r|e];
      [|intros Hin; cbn [snd] in Hin; in_inv Hin; discriminate].
    destruct (success r);
      [|intros Hin; cbn [snd] in Hin; in_inv Hin; discriminate].
    cbv zeta. cbn [snd]. intros [Hin|Hin]%in_app_or.
    + in_inv Hin; discriminate.
    + by apply persist_trace_sound in Hin.
  - revert Hin. rewrite update_auth_run. cbv zeta.
    destruct (truthy _); cbn [negb];
      [|intros Hin; cbn [snd] in Hin; in_inv Hin; discriminate].
    destruct (str_in _ _); cbn [negb];
      [|intros Hin; cbn [snd] in Hin; in_inv Hin; discriminate].
    destruct (env_file st) as [env|];
      [|intros Hin; cbn [snd] in Hin; in_inv Hin; discriminate].
    destruct (backup_file_ok C st []);
      [|intros Hin; cbn [snd] in Hin; in_inv Hin; discriminate].
    destruct (process_cookies_reply _ _ _ _) as [r|e];
      [|intros Hin; cbn [snd] in Hin; in_inv Hin; discriminate].
    destruct (success r);
      [|intros Hin; cbn [snd] in Hin; in_inv Hin; discriminate].
    cbn [snd]. intros [Hin|Hin]%in_app_or.
    + in_inv Hin; discriminate.
    + by apply persist_trace_sound in Hin.
  - revert Hin.
    destruct (auto_register_run C st)
      as [[e ->]|(evs & out & h & tok & q & Hrun & ->)]; cbn [snd].
    + intros [[Hin|Hin]%in_app_or|Hin]%in_app_or.
      * by apply persist_trace_sound in Hin.
      * in_inv Hin; discriminate.
      * in_inv Hin; discriminate.
    + destruct (SequencerRun_facts _ _ _ _ Hrun) as (_ & _ & _ & Ew & _).
      destruct (teardown_quiet h q out) as (_ & _ & Tw & _).
      rewrite count_zero_not_in in Ew, Tw.
      intros [[Hin|Hin]%in_app_or|Hin]%in_app_or.
      * by apply persist_trace_sound in Hin.
      * in_inv Hin; discriminate.
      * apply in_app_or in Hin as [Hin|Hin]; [in_inv Hin; discriminate|].
        apply in_app_or in Hin as [Hin|Hin];
          [apply Ew in Hin|apply Tw in Hin]; discriminate.
Qed.

Lemma X15_witness :
  ("DOMAIN" = "DOMAIN" ∨ "DOMAIN" = "EMAIL" ∨ "DOMAIN" = "PASSWORD")
  ∧ "example.com" ≠ "" ∧ strip "example.com" = "example.com".
Proof.
  refine (X15_store_writes_are_recognized_and_stripped Stub.quota
            Stub.with_domain (reset_ID Stub.quota)
            {["DOMAIN" := "example.com"]} true "DOMAIN" "example.com" _ _ _).
  - right. left. reflexivity.
  - vm_compute. do 2 right. left. reflexivity.
  - reflexivity.
Defined.

(** ** Auto Register *)

(** X16. [auto_register] persists the visible fields and reloads the
    environment before it creates the registrar: its trace opens with
    the write of the update [u] (the variables DOMAIN, EMAIL and
    PASSWORD whose field is not empty once stripped, each with its
    stripped text) when [u] is not empty, then [load_dotenv] and the
    construction.  When the construction raises, that exception is
    reported and nothing else follows: no sequencer step, no teardown;
    the store keeps what the pre-step wrote. *)
Theorem X16_auto_register_persists_first (C : Collaborators) (st : State) :
  let res := invoke (auto_register C) st in
  ∃ (u : gmap string string) (ok : bool) (persisted : list Event)
    (r : Outcome unit) (rest : list Event),
    res.2 = persisted ++ [EvLoadDotenv; EvNewRegistration r] ++ rest
    ∧ (∀ k v, u !! k = Some v ↔
         (k = "DOMAIN" ∨ k = "EMAIL" ∨ k = "PASSWORD")
         ∧ strip (entry_text (entries st) k) ≠ ""
         ∧ v = strip (entry_text (entries st) k))
    ∧ ok = update_env_vars_ok C st [] u
    ∧ (u = ∅ → persisted = [])
    ∧ (u ≠ ∅ →
       persisted
       = EvUpdateEnvVars u ok ::
         (if ok then [] else [EvShowMessage showwarning "警告" "保存环境变量失败"]))
    ∧ (u ≠ ∅ → ok = true →
       env_file res.1 = Some (u ∪ default ∅ (env_file st)))
    ∧ (u = ∅ ∨ ok = false → env_file res.1 = env_file st)
    ∧ match r with
      | Raises e =>
          rest = [EvReport e] ∧ steps res.2 = [] ∧ count is_quit res.2 = 0%nat
      | Returns _ =>
          ∃ i h rest', rest = EvInitBrowser i h :: rest'
      end.
Proof.
  intros res. subst res.
  set (u := visible_updates (env_vars config) (entries st)).
  set (ok := update_env_vars_ok C st [] u).
  destruct (persist_trace_quiet u ok) as (Hq & _ & _ & _ & Hs).
  destruct (persist_cases u ok st) as (Pe & Pw & Ps & Pn).
  assert (Hfields : ∀ k v, u !! k = Some v ↔
         (k = "DOMAIN" ∨ k = "EMAIL" ∨ k = "PASSWORD")
         ∧ strip (entry_text (entries st) k) ≠ ""
         ∧ v = strip (entry_text (entries st) k))
    by (intros k v; apply visible_updates_fields).
  destruct (auto_register_run C st)
    as [[e ->]|(evs & out & h & tok & q & Hrun & ->)]; cbn [fst snd];
    fold u; fold ok.
  - exists u, ok, (persist_trace u ok), (Raises e), [EvReport e].
    rewrite <- app_assoc.
    split; [done|]. split; [exact Hfields|]. split; [done|].
    split; [exact Pe|]. split; [exact Pw|].
    split; [intros Hne Hok; by rewrite (Ps Hne Hok)|].
    split; [intros Hor; by rewrite (Pn Hor)|].
    rewrite !count_app, !steps_app, Hq, Hs. done.
  - exists u, ok, (persist_trace u ok), (Returns tt), (evs ++ teardown h q out).
    rewrite <- app_assoc.
    split; [done|]. split; [exact Hfields|]. split; [done|].
    split; [exact Pe|]. split; [exact Pw|].
    autorewrite with state.
    split; [intros Hne Hok; by rewrite (Ps Hne Hok)|].
    split; [intros Hor; by rewrite (Pn Hor)|].
    destruct Hrun; cbn [app]; by eexists _, _, _.
Qed.

(** X17. When [registrar.browser.quit()] raises in the [finally]
    block, its exception is the one the workflow reports, also when a
    sequencer step had raised before (that first exception is lost);
    the report is the last event and the only one. *)
Theorem X17_teardown_exception_wins (C : Collaborators) (st : State) (e : Exc) :
  let tr := (invoke (auto_register C) st).2 in
  In (EvBrowserQuit (Raises e)) tr →
  ∃ pre,
    tr = pre ++ [EvBrowserQuit (Raises e); EvReport e]
    ∧ count is_report pre = 0%nat
    ∧ count is_quit pre = 0%nat.
Proof.
  intros tr. subst tr.
  destruct (auto_register_run C st)
    as [[e0 ->]|(evs & out & h & tok & q & Hrun & ->)]; cbn [snd].
  all: set (u := visible_updates (env_vars config) (entries st)).
  all: set (ok := update_env_vars_ok C st [] u).
  all: destruct (persist_trace_quiet u ok) as (Hq & Hr & _).
  - intros Hin. exfalso.
    assert (Hc : count is_quit ((persist_trace u ok ++ [EvLoadDotenv])
                   ++ [EvNewRegistration (Raises e0); EvReport e0]) = 0%nat)
      by (rewrite !count_app, Hq; reflexivity).
    rewrite count_zero_not_in in Hc. apply Hc in Hin. discriminate.
  - destruct (SequencerRun_facts _ _ _ _ Hrun) as (Eq & Er & _).
    assert (Hpre : count is_quit ((persist_trace u ok ++ [EvLoadDotenv])
                     ++ [EvNewRegistration (Returns tt)] ++ evs) = 0%nat
                   ∧ count is_report ((persist_trace u ok ++ [EvLoadDotenv])
                     ++ [EvNewRegistration (Returns tt)] ++ evs) = 0%nat)
      by (rewrite !count_app, Hq, Hr, Eq, Er; done).
    destruct Hpre as [Pq Pr].
    intros Hin.
    assert (Hin' : In (EvBrowserQuit (Raises e)) (teardown h q out)).
    { rewrite !app_assoc in Hin. apply in_app_or in Hin as [Hin|Hin]; [|done].
      rewrite <- !app_assoc in Hin.
      rewrite count_zero_not_in in Pq.
      rewrite <- app_assoc in Pq. apply Pq in Hin. discriminate. }
    unfold teardown in Hin'. destruct h.
    + destruct Hin' as [[= ->]|Hin'].
      * exists ((persist_trace u ok ++ [EvLoadDotenv])
                ++ [EvNewRegistration (Returns tt)] ++ evs).
        split; [|done]. unfold teardown. cbn [report].
        by rewrite <- !app_assoc.
      * destruct q, out; cbn in Hin'; intuition discriminate.
    + destruct out; cbn in Hin'; intuition discriminate.
Qed.

Lemma X17_witness :
  ∃ pre,
    (invoke (auto_register Scenario.password_and_quit_raise) Stub.fresh).2
    = pre ++ [EvBrowserQuit (Raises (Scenario.boom "browser gone"));
              EvReport (Scenario.boom "browser gone")]
    ∧ count is_report pre = 0%nat
    ∧ count is_quit pre = 0%nat.
Proof.
  refine (X17_teardown_exception_wins Scenario.password_and_quit_raise
            Stub.fresh (Scenario.boom "browser gone") _).
  vm_compute. do 6 right. left. reflexivity.
Defined.




(** X19. The guard [if registrar.browser] of the [finally] block: in
    an execution where [init_browser] ended without a browser (it
    raised before creating one, or created none), [quit] is never
    called. *)
Theorem X19_no_teardown_without_browser (C : Collaborators) (st : State)
    (r : Outcome unit) :
  In (EvInitBrowser r false) (invoke (auto_register C) st).2 →
  count is_quit (invoke (auto_register C) st).2 = 0%nat.
Proof. apply no_teardown_without_handle. Qed.

Lemma X19_witness :
  count is_quit (invoke (auto_register Scenario.no_browser) Stub.fresh).2 = 0%nat.
Proof.
  refine (X19_no_teardown_without_browser Scenario.no_browser Stub.fresh
            (Raises (Scenario.boom "no chrome")) _).
  vm_compute. do 2 right. left. reflexivity.
Defined.

(** ** The validation gate of Update Auth *)

(** X20. Which warning [update_auth] shows: "请输入Cookie字符串" when
    the cookie field is empty once stripped (blank or made of
    whitespace only), and the format warning when it holds text that
    lacks "WorkosCursorSessionToken=".  Either way the state is
    untouched. *)
Theorem X20_update_auth_which_warning (C : Collaborators) (st : State) :
  let c := strip (entry_text (entries st) "cookie") in
  (c = "" → invoke (update_auth C) st = (st, [warning_no_cookie]))
  ∧ (c ≠ "" → str_in "WorkosCursorSessionToken=" c = false →
     invoke (update_auth C) st = (st, [warning_bad_format])).
Proof.
  intros c. rewrite update_auth_run. cbv zeta. fold c. split.
  - by intros ->.
  - intros Hne Hin. rewrite Hin.
    destruct (truthy c) eqn:Ht; [done|]. by apply truthy_false in Ht.
Qed.

Lemma X20_witness :
  invoke (update_auth Stub.happy) (Stub.with_cookie "   ")
  = (Stub.with_cookie "   ", [warning_no_cookie]).
Proof.
  refine (proj1 (X20_update_auth_which_warning Stub.happy
                   (Stub.with_cookie "   ")) _).
  reflexivity.
Defined.
